(** * isotropy-parser-db: the query idiom recognizers, embedded in Rocq

    The development follows the sources file by file:
    - [Js]: the JavaScript values, objects and completions the code works on;
    - [Ast]: the Babel nodes and the path accessors the analyzers use;
    - [DbStatements]: the command builders (createCollection, createQuery, ...);
    - [Chimpanzee]: the schemas of the matcher and how a schema is run;
    - [SortSchema]: schemas/sort.js;
    - [UpdateSchema]: schemas/update.js;
    - [ReadAnalyzer]: the read analyzer (nodeDefinitions, getSortArgs, ...);
    - [Plugin]: the plugin object (ensureValidConfiguration, pre, visitor);
    - [Inputs]: the expressions and the statements the theorems speak of.
    The theorems come last, in the order of the modules. *)

From Stdlib Require Import String Ascii List ZArith Bool.
From Stdlib Require Import DecimalString.
Import ListNotations.
Open Scope string_scope.
Set Warnings "-register-all".

(* ================================================================== *)
(** ** JavaScript values *)

Module Js.

(** Values.  Numbers are the integers that numeric literals of the idioms
    denote; [NaN] is the result of arithmetic on something that is not a
    number.  An object is the list of its own properties in insertion order.
    [Opaque] is a value the code holds but never looks into here: a function,
    an imported binding. *)
Inductive Value : Type :=
| Undefined
| Null
| Boolean (b : bool)
| Number (z : Z)
| NaN
| Str (s : string)
| Arr (items : list Value)
| Obj (fields : list (string * Value))
| Opaque (name : string).

(** Errors that are thrown. *)
Inductive Error : Type :=
| Err (message : string)
| ReferenceError (identifier : string)
| TypeError (message : string).

(** The completion of an evaluation: a value, or a thrown error. *)
Inductive Completion (A : Type) : Type :=
| Return (a : A)
| Throw (e : Error).
Arguments Return {A} a.
Arguments Throw {A} e.

Definition bind {A B} (c : Completion A) (k : A -> Completion B) : Completion B :=
  match c with
  | Return a => k a
  | Throw e => Throw e
  end.

(** Own property lookup in a property list. *)
Fixpoint lookup (k : string) (fields : list (string * Value)) : option Value :=
  match fields with
  | [] => None
  | (k', v) :: rest => if String.eqb k k' then Some v else lookup k rest
  end.

(** [o.k] on a value that is not undefined or null: a missing property reads
    as undefined. *)
Definition get (k : string) (o : Value) : Value :=
  match o with
  | Obj fields => match lookup k fields with Some v => v | None => Undefined end
  | _ => Undefined
  end.

(** [o.k] in general: reading a property of undefined or null throws. *)
Definition member (o : Value) (k : string) : Completion Value :=
  match o with
  | Undefined => Throw (TypeError ("Cannot read property '" ++ k ++ "' of undefined"))
  | Null => Throw (TypeError ("Cannot read property '" ++ k ++ "' of null"))
  | _ => Return (get k o)
  end.

Definition has (k : string) (o : Value) : bool :=
  match o with
  | Obj fields => match lookup k fields with Some _ => true | None => false end
  | _ => false
  end.

(** Writing a property in an object literal: an existing key keeps its
    position and takes the new value, a new key is appended. *)
Fixpoint set (k : string) (v : Value) (fields : list (string * Value))
  : list (string * Value) :=
  match fields with
  | [] => [(k, v)]
  | (k', v') :: rest =>
      if String.eqb k k' then (k, v) :: rest else (k', v') :: set k v rest
  end.

(** [{...fields, ...props}]: the own properties of [props] written one by one. *)
Definition spread (fields props : list (string * Value)) : list (string * Value) :=
  fold_left (fun acc kv => set (fst kv) (snd kv) acc) props fields.

(** Strict equality [===] on the values the code compares: primitives by
    value, NaN different from itself.  Objects and arrays compare by
    reference; the operands compared by the code are read at different places
    of a tree, so two of them are never the same object. *)
Definition strict_equals (a b : Value) : bool :=
  match a, b with
  | Undefined, Undefined => true
  | Null, Null => true
  | Boolean x, Boolean y => Bool.eqb x y
  | Number x, Number y => Z.eqb x y
  | Str x, Str y => String.eqb x y
  | _, _ => false
  end.

(** [xs.includes(x)] (SameValueZero: as [===], but NaN is found). *)
Definition same_value_zero (a b : Value) : bool :=
  match a, b with
  | NaN, NaN => true
  | _, _ => strict_equals a b
  end.

Definition includes (xs : list Value) (x : Value) : bool :=
  existsb (fun y => same_value_zero y x) xs.

(** [xs.every(p)]. *)
Definition every {A} (p : A -> bool) (xs : list A) : bool := forallb p xs.

(** Ramda's [R.equals]: structural equality, objects compared property by
    property whatever the order of the keys. *)
Fixpoint equals (a b : Value) {struct a} : bool :=
  match a, b with
  | Undefined, Undefined => true
  | Null, Null => true
  | Boolean x, Boolean y => Bool.eqb x y
  | Number x, Number y => Z.eqb x y
  | NaN, NaN => true
  | Str x, Str y => String.eqb x y
  | Arr xs, Arr ys =>
      (fix all2 (xs ys : list Value) {struct xs} : bool :=
         match xs, ys with
         | [], [] => true
         | x :: xs', y :: ys' => equals x y && all2 xs' ys'
         | _, _ => false
         end) xs ys
  | Obj fs, Obj gs =>
      Nat.eqb (length fs) (length gs) &&
      (fix allk (fs : list (string * Value)) {struct fs} : bool :=
         match fs with
         | [] => true
         | (k, v) :: fs' =>
             match lookup k gs with
             | Some w => equals v w
             | None => false
             end && allk fs'
         end) fs
  | _, _ => false
  end.

(** [String(v)], as a template literal converts an interpolated value. *)
Fixpoint toString (v : Value) : string :=
  match v with
  | Undefined => "undefined"
  | Null => "null"
  | Boolean true => "true"
  | Boolean false => "false"
  | Number z => NilEmpty.string_of_int (Z.to_int z)
  | NaN => "NaN"
  | Str s => s
  | Arr items =>
      (fix join (xs : list Value) : string :=
         let element (x : Value) : string :=
           match x with Undefined | Null => "" | _ => toString x end in
         match xs with
         | [] => ""
         | [x] => element x
         | x :: xs' => element x ++ "," ++ join xs'
         end) items
  | Obj _ => "[object Object]"
  | Opaque name => "function " ++ name
  end.

(** Truthiness. *)
Definition truthy (v : Value) : bool :=
  match v with
  | Undefined | Null | NaN => false
  | Boolean b => b
  | Number z => negb (Z.eqb z 0)
  | Str s => negb (String.eqb s "")
  | Arr _ | Obj _ | Opaque _ => true
  end.

(** [typeof v === "number"]. *)
Definition isNumber (v : Value) : bool :=
  match v with Number _ | NaN => true | _ => false end.

(** [a > b] and [a < b] between numbers (false as soon as one side is NaN;
    operands that are not numbers are not converted). *)
Definition gt (a b : Value) : bool :=
  match a, b with Number x, Number y => Z.ltb y x | _, _ => false end.

Definition lt (a b : Value) : bool :=
  match a, b with Number x, Number y => Z.ltb x y | _, _ => false end.

(** [a * b] and [a + b] between numbers; an operand that is not a number
    gives NaN (conversions and string concatenation are left out). *)
Definition mul (a b : Value) : Value :=
  match a, b with Number x, Number y => Number (x * y) | _, _ => NaN end.

Definition add (a b : Value) : Value :=
  match a, b with Number x, Number y => Number (x + y) | _, _ => NaN end.

(** [xs[i]]: indexing undefined or null throws, an index out of range reads
    as undefined. *)
Definition index (xs : Value) (i : nat) : Completion Value :=
  match xs with
  | Undefined | Null => Throw (TypeError "Cannot read property of undefined")
  | Arr items => Return (nth i items Undefined)
  | _ => Return Undefined
  end.

(** The names visible at a point of the program, innermost first, with the
    value each one holds.  Reading a name that no enclosing scope declares
    throws a ReferenceError. *)
Definition Scope (A : Type) := list (string * A).

Fixpoint resolve {A} (scope : Scope A) (x : string) : Completion A :=
  match scope with
  | [] => Throw (ReferenceError x)
  | (y, a) :: rest => if String.eqb x y then Return a else resolve rest x
  end.

(** [xs.map(f)] with a callback that may throw: the first throw ends the
    loop. *)
Fixpoint mapM {A B} (f : A -> Completion B) (xs : list A) : Completion (list B) :=
  match xs with
  | [] => Return []
  | x :: rest =>
      bind (f x) (fun y => bind (mapM f rest) (fun ys => Return (y :: ys)))
  end.

End Js.

Import Js.

Declare Scope js_scope.
Delimit Scope js_scope with js.
Notation "x <- c ;; k" := (bind c (fun x => k))
  (at level 61, c at next level, right associativity) : js_scope.
Notation "c ;;; k" := (bind c (fun _ => k))
  (at level 61, right associativity) : js_scope.
Open Scope js_scope.

(* ================================================================== *)
(** ** Babel nodes *)

Module Ast.

(** The node kinds the recognizers look at, with the fields they read.  An
    identifier carries its position in the file: two identifier nodes of one
    file are the same node exactly when they have the same position, which is
    how the test [p.node === path.node.object] of isRoot is decided. *)
Inductive Node : Type :=
| Identifier (name : string) (start : nat)
| NumericLiteral (value : Z)
| StringLiteral (value : string)
| BooleanLiteral (value : bool)
| MemberExpression (object property : Node)
| CallExpression (callee : Node) (arguments : list Node)
| ArrowFunctionExpression (params : list Node) (body : Node)
| BinaryExpression (operator : string) (left right : Node)
| UnaryExpression (operator : string) (argument : Node)
| ConditionalExpression (test consequent alternate : Node)
| AssignmentExpression (operator : string) (left right : Node)
| ObjectExpression (properties : list Node)
| ObjectProperty (key value : Node)
| SpreadProperty (argument : Node)
| ImportDeclaration (source : string).

(** The node as the JavaScript object the matcher and the builders receive. *)
Fixpoint node_of (n : Node) : Value :=
  match n with
  | Identifier name start =>
      Obj [("type", Str "Identifier"); ("name", Str name);
           ("start", Number (Z.of_nat start))]
  | NumericLiteral value =>
      Obj [("type", Str "NumericLiteral"); ("value", Number value)]
  | StringLiteral value =>
      Obj [("type", Str "StringLiteral"); ("value", Str value)]
  | BooleanLiteral value =>
      Obj [("type", Str "BooleanLiteral"); ("value", Boolean value)]
  | MemberExpression object property =>
      Obj [("type", Str "MemberExpression"); ("object", node_of object);
           ("property", node_of property)]
  | CallExpression callee arguments =>
      Obj [("type", Str "CallExpression"); ("callee", node_of callee);
           ("arguments", Arr (map node_of arguments))]
  | ArrowFunctionExpression params body =>
      Obj [("type", Str "ArrowFunctionExpression");
           ("params", Arr (map node_of params)); ("body", node_of body)]
  | BinaryExpression operator lhs rhs =>
      Obj [("type", Str "BinaryExpression"); ("left", node_of lhs);
           ("operator", Str operator); ("right", node_of rhs)]
  | UnaryExpression operator argument =>
      Obj [("type", Str "UnaryExpression"); ("operator", Str operator);
           ("argument", node_of argument)]
  | ConditionalExpression test consequent alternate =>
      Obj [("type", Str "ConditionalExpression"); ("test", node_of test);
           ("consequent", node_of consequent); ("alternate", node_of alternate)]
  | AssignmentExpression operator lhs rhs =>
      Obj [("type", Str "AssignmentExpression"); ("operator", Str operator);
           ("left", node_of lhs); ("right", node_of rhs)]
  | ObjectExpression properties =>
      Obj [("type", Str "ObjectExpression");
           ("properties", Arr (map node_of properties))]
  | ObjectProperty key value =>
      Obj [("type", Str "ObjectProperty"); ("key", node_of key);
           ("value", node_of value)]
  | SpreadProperty argument =>
      Obj [("type", Str "SpreadProperty"); ("argument", node_of argument)]
  | ImportDeclaration source =>
      Obj [("type", Str "ImportDeclaration");
           ("source", Obj [("type", Str "StringLiteral"); ("value", Str source)])]
  end.

(** A path is a node or, after [get] of a field the node does not have, a
    path whose [node] is undefined. *)
Definition Path := option Node.

Definition isMemberExpression (p : Path) : bool :=
  match p with Some (MemberExpression _ _) => true | _ => false end.

Definition isIdentifier (p : Path) : bool :=
  match p with Some (Identifier _ _) => true | _ => false end.

Definition isObjectExpression (p : Path) : bool :=
  match p with Some (ObjectExpression _) => true | _ => false end.

(** The single-node fields. *)
Definition field (k : string) (n : Node) : Path :=
  match n with
  | MemberExpression object property =>
      if String.eqb k "object" then Some object
      else if String.eqb k "property" then Some property else None
  | CallExpression callee _ =>
      if String.eqb k "callee" then Some callee else None
  | ArrowFunctionExpression _ body =>
      if String.eqb k "body" then Some body else None
  | BinaryExpression _ lhs rhs | AssignmentExpression _ lhs rhs =>
      if String.eqb k "left" then Some lhs
      else if String.eqb k "right" then Some rhs else None
  | UnaryExpression _ argument | SpreadProperty argument =>
      if String.eqb k "argument" then Some argument else None
  | ConditionalExpression test consequent alternate =>
      if String.eqb k "test" then Some test
      else if String.eqb k "consequent" then Some consequent
      else if String.eqb k "alternate" then Some alternate else None
  | ObjectProperty key value =>
      if String.eqb k "key" then Some key
      else if String.eqb k "value" then Some value else None
  | _ => None
  end.

(** [path.get(k)] for a single-node field: on a path without a node the
    access to the node's container throws. *)
Definition get_path (p : Path) (k : string) : Completion Path :=
  match p with
  | None => Throw (TypeError ("Cannot read property '" ++ k ++ "' of undefined"))
  | Some n => Return (field k n)
  end.

(** [path.get("params")], [path.get("properties")]: the list of element
    paths (empty when the node has no such list). *)
Definition get_list (p : Path) (k : string) : Completion (list Node) :=
  match p with
  | None => Throw (TypeError ("Cannot read property '" ++ k ++ "' of undefined"))
  | Some (ArrowFunctionExpression params _) =>
      Return (if String.eqb k "params" then params else [])
  | Some (CallExpression _ arguments) =>
      Return (if String.eqb k "arguments" then arguments else [])
  | Some (ObjectExpression properties) =>
      Return (if String.eqb k "properties" then properties else [])
  | Some _ => Return []
  end.

(** The scalar fields of a node: [node.name], [node.operator], [node.value]
    for a literal. *)
Definition scalar (k : string) (n : Node) : Value :=
  match n with
  | Identifier name _ => if String.eqb k "name" then Str name else Undefined
  | NumericLiteral value => if String.eqb k "value" then Number value else Undefined
  | StringLiteral value => if String.eqb k "value" then Str value else Undefined
  | BooleanLiteral value => if String.eqb k "value" then Boolean value else Undefined
  | BinaryExpression operator _ _ | UnaryExpression operator _
  | AssignmentExpression operator _ _ =>
      if String.eqb k "operator" then Str operator else Undefined
  | _ => Undefined
  end.

(** [path.node.k] for a scalar field: the node must be there. *)
Definition node_scalar (p : Path) (k : string) : Completion Value :=
  match p with
  | None => Throw (TypeError ("Cannot read property '" ++ k ++ "' of undefined"))
  | Some n => Return (scalar k n)
  end.

(** [path.get(k).node] for a scalar field: the path of a missing field has
    an undefined node. *)
Definition get_scalar (p : Path) (k : string) : Completion Value :=
  match p with
  | None => Throw (TypeError ("Cannot read property '" ++ k ++ "' of undefined"))
  | Some n => Return (scalar k n)
  end.

(** [a === b] between two identifier nodes of one file. *)
Definition node_eqb_identifier (a b : Node) : bool :=
  match a, b with
  | Identifier x i, Identifier y j => String.eqb x y && Nat.eqb i j
  | _, _ => false
  end.

End Ast.

Import Ast.

(* ================================================================== *)
(** ** The command builders (db-statements) *)

Module DbStatements.

(** [const { db, collection } = args; return { type: "query", db, collection }] *)
Definition createCollection (args : Value) : Completion Value :=
  db <- member args "db" ;;
  collection <- member args "collection" ;;
  Return (Obj [("type", Str "query"); ("db", db); ("collection", collection)]).

(** The own properties a spread [...props] copies. *)
Definition own (props : Value) : list (string * Value) :=
  match props with Obj fields => fields | _ => [] end.

(** [{ type: "query", method: name, ...props, source }] *)
Definition createQuery (name : string) (props source : Value) : Value :=
  Obj (set "source" source
         (spread [("type", Str "query"); ("method", Str name)] (own props))).

(** [{ type: "value", property: name, ...props, source }] *)
Definition createValue (name : string) (props source : Value) : Value :=
  Obj (set "source" source
         (spread [("type", Str "value"); ("property", Str name)] (own props))).

(** [{ type: "modification", method: name, ...props, source }] *)
Definition createModification (name : string) (props source : Value) : Value :=
  Obj (set "source" source
         (spread [("type", Str "modification"); ("method", Str name)] (own props))).

Definition filter (command predicate : Value) : Value :=
  createQuery "filter" (Obj [("predicate", predicate)]) command.

Definition map (command fields : Value) : Value :=
  createQuery "map" (Obj [("fields", fields)]) command.

Definition slice (command args : Value) : Completion Value :=
  from <- member args "from" ;;
  to <- member args "to" ;;
  Return (createQuery "slice" (Obj [("from", from); ("to", to)]) command).

Definition sort (command fields : Value) : Value :=
  createQuery "sort" (Obj [("fields", fields)]) command.

Definition length (command : Value) : Value :=
  createValue "length" (Obj []) command.

Definition insert (command items : Value) : Value :=
  createModification "insert" (Obj [("items", items)]) command.

Definition update (command args : Value) : Completion Value :=
  update <- member args "update" ;;
  predicate <- member args "predicate" ;;
  Return (createModification "update"
            (Obj [("update", update); ("predicate", predicate)]) command).

Definition remove (command predicate : Value) : Value :=
  createModification "remove" (Obj [("predicate", predicate)]) command.

End DbStatements.

(* ================================================================== *)
(** ** The matcher (chimpanzee) *)

Module Chimpanzee.

(** What a schema, or the build function of a schema, hands back: an
    instance of Match, an instance of Skip, any other value (a sort
    descriptor, a command), or a function of no argument, kept with the
    completion a call of it would have. *)
Inductive Result : Type :=
| Match (value : Value)
| Skip (reason : string)
| Plain (v : Value)
| Closure (call : Completion Result).

Definition isMatch (r : Result) : bool :=
  match r with Match _ => true | _ => false end.

Definition isSkip (r : Result) : bool :=
  match r with Skip _ => true | _ => false end.

(** [result.value]: a Match holds its value, an instance of Skip and a
    function have no such property, and any other value is read like every
    object (a missing property reads as undefined). *)
Definition value_of (r : Result) : Value :=
  match r with
  | Match v => v
  | Plain v => get "value" v
  | Skip _ | Closure _ => Undefined
  end.

(** The evaluation of [result.value]: it throws when [result] is undefined
    or null. *)
Definition read_value (r : Result) : Completion Value :=
  match r with
  | Plain v => member v "value"
  | _ => Return (value_of r)
  end.

(** The schemas the sources write: a primitive (literal match), an object
    literal, an array literal or [array([...])], [any([...])],
    [capture(name)] and [capture()], [exists(test)], [repeatingItem(s)]. *)
Inductive Schema : Type :=
| literal (v : Value)
| obj (fields : list (string * Schema))
| array (items : list Schema)
| any (alternatives : list Schema)
| capture (name : option string)
| exists_ (test : Value -> bool)
| repeatingItem (item : Schema).

(** Captures that end up in one object: a name bound twice must be bound to
    equal values. *)
Fixpoint merge (captures acc : list (string * Value))
  : option (list (string * Value)) :=
  match captures with
  | [] => Some acc
  | (n, v) :: rest =>
      match lookup n acc with
      | Some w => if equals v w then merge rest acc else None
      | None => merge rest (acc ++ [(n, v)])%list
      end
  end.

(** What the match of the field [k] of an object schema adds to the value of
    the object: nothing for a literal or a test; the captures of a nested
    object literal or of a named capture, merged; the child's value under the
    key [k] otherwise (an unnamed capture, an array, an alternation). *)
Definition contribute (child : Schema) (k : string) (v : Value)
  (acc : list (string * Value)) : option (list (string * Value)) :=
  match child with
  | literal _ | exists_ _ => Some acc
  | obj _ | capture (Some _) => merge (DbStatements.own v) acc
  | capture None | array _ | any _ | repeatingItem _ => merge [(k, v)] acc
  end.

(** Modelled from the spec: the matcher engine is the chimpanzee package,
    which the schemas import and which is not among the sources.  Section 4.1
    gives the rules: a literal matches a structurally equal value; a shape
    matches field by field, ignores the other fields of the value and skips
    with the innermost reason; a sequence matches by position, skips on an
    arity mismatch, and a repeating slot takes the remaining elements as a
    sequence; an alternation returns its first match; a capture records the
    value under its name, and a name recorded twice in one object of captures
    must have the same value, else the outcome is a Skip; a test skips when
    it fails.  The value of a Match is laid out the way the build functions
    of the sources read it: the captures of nested object literals are
    merged into one object ([result.value.lhs1]), an array is an array of the
    values of its items ([result.value.params[0].name]), and the value of an
    alternation or of an unnamed capture is stored under the key of its field
    ([result.value.body]). *)
Fixpoint run (s : Schema) (input : Value) {struct s} : Result :=
  match s with
  | literal v =>
      if strict_equals input v then Match Undefined
      else Skip ("Expected " ++ toString v ++ " but got " ++ toString input ++ ".")
  | capture (Some n) => Match (Obj [(n, input)])
  | capture None => Match input
  | exists_ test =>
      if test input then Match Undefined else Skip "Does not exist."
  | repeatingItem item => run item input
  | any alternatives =>
      (fix first (alts : list Schema) : Result :=
         match alts with
         | [] => Skip "None of the items matched."
         | a :: rest =>
             match run a input with
             | Skip _ => first rest
             | r => r
             end
         end) alternatives
  | obj fields =>
      (fix each (fs : list (string * Schema)) (acc : list (string * Value))
         : Result :=
         match fs with
         | [] => Match (Obj acc)
         | (k, child) :: rest =>
             match run child (get k input) with
             | Match v =>
                 match contribute child k v acc with
                 | Some acc' => each rest acc'
                 | None => Skip ("Captures of " ++ k ++ " disagree.")
                 end
             | r => r
             end
         end) fields []
  | array items =>
      match input with
      | Arr xs =>
          (fix each (its : list Schema) (xs acc : list Value) {struct its}
             : Result :=
             match its with
             | [] =>
                 match xs with
                 | [] => Match (Arr acc)
                 | _ :: _ => Skip "Array has more items than expected."
                 end
             | repeatingItem item :: _ =>
                 (fix repeat (xs seen : list Value) {struct xs} : Result :=
                    match xs with
                    | [] => Match (Arr (acc ++ [Arr seen])%list)
                    | x :: xs' =>
                        match run item x with
                        | Match v => repeat xs' (seen ++ [v])%list
                        | r => r
                        end
                    end) xs []
             | it :: rest =>
                 match xs with
                 | [] => Skip "Array has fewer items than expected."
                 | x :: xs' =>
                     match run it x with
                     | Match v => each rest xs' (acc ++ [v])%list
                     | r => r
                     end
                 end
             end) items xs []
      | _ => Skip "Expected an array."
      end
  end.

End Chimpanzee.

Import Chimpanzee.

(* ================================================================== *)
(** ** schemas/sort.js *)

Module SortSchema.

(** The bindings of the module: its imports and its top-level declarations. *)
Definition module_scope : Scope Value :=
  List.map (fun n => (n, Opaque n))
    ["R"; "$"; "capture"; "composite"; "any"; "array"; "optionalItem";
     "literal"; "Match"; "Skip"; "source"; "collection"; "select"; "slice";
     "integer"; "sort"; "operators"; "getSortExpression1"; "compareFn1";
     "sortExpression2Ascending"; "sortExpression2Descending";
     "getSortExpression2"; "compareFn2"].

(** [any([">", "<", ">=", "<=", "==="].map(i => literal(i)))] *)
Definition operators : Schema :=
  any (List.map (fun i => literal (Str i)) [">"; "<"; ">="; "<="; "==="]).

(** The destructured parameter of getSortExpression1. *)
Definition parameters1 : list string :=
  ["param1"; "param2"; "lhs1"; "lhsProp1"; "rhs1"; "rhsProp1"; "operator1";
   "val1"; "lhs2"; "lhsProp2"; "rhs2"; "rhsProp2"; "operator2"; "val2"; "val3"].

(** [xs.find(p)]. *)
Definition find_value (p : Value -> bool) (xs : list Value) : Value :=
  match List.find p xs with Some v => v | None => Undefined end.

(** A cell of the matrix as an operand of [*]: a Match, a Skip or a function
    is an object, not a number. *)
Definition value_of_cell (r : Result) : Value :=
  match r with Plain v => v | _ => Opaque "object" end.

Definition getSortExpression1 (arg : Value) : Completion Result :=
  _ <- member arg "param1" ;;
  let param1 := get "param1" arg in
  let param2 := get "param2" arg in
  let lhs1 := get "lhs1" arg in
  let lhsProp1 := get "lhsProp1" arg in
  let rhs1 := get "rhs1" arg in
  let rhsProp1 := get "rhsProp1" arg in
  let operator1 := get "operator1" arg in
  let val1 := get "val1" arg in
  let lhs2 := get "lhs2" arg in
  let lhsProp2 := get "lhsProp2" arg in
  let rhs2 := get "rhs2" arg in
  let rhsProp2 := get "rhsProp2" arg in
  let operator2 := get "operator2" arg in
  let val2 := get "val2" arg in
  let val3 := get "val3" arg in
  if strict_equals lhsProp1 rhsProp1 && strict_equals lhsProp1 lhsProp2
     && strict_equals lhsProp1 rhsProp2
  then
    (* If x precedes y then 1 else -1 *)
    let paramOrder (p1 p2 : Value) : Result :=
      if strict_equals param1 p1 && strict_equals param2 p2 then Plain (Number 1)
      else if strict_equals param1 p2 && strict_equals param2 p1
           then Plain (Number (-1))
           else Skip ("The sort expression must reference parameters "
                      ++ toString param1 ++ " and " ++ toString param2 ++ ".") in
    (* > is 1, < is -1, == is 0 *)
    let legitOperators := [Str ">"; Str ">="; Str "<"; Str "<="; Str "=="; Str "==="] in
    let operatorVal (o : Value) : Result :=
      if includes [Str ">"; Str ">="] o then Plain (Number 1)
      else if includes [Str "<"; Str "<="] o then Plain (Number (-1))
      else if includes [Str "=="; Str "==="] o then Plain (Number 0)
      else Skip ("Unknown operator "
                 ++ toString (find_value (fun o => negb (includes legitOperators o))
                                [operator1; operator2])
                 ++ " was found in the sort expression.") in
    (* val > 1 is 1, val < 0 is -1, 0 is 0 *)
    let stdVal (val : Value) : Result :=
      if isNumber val
      then Plain (Number (if gt val (Number 1) then 1
                          else if lt val (Number 0) then -1 else 0))
      else Skip ("The sort expression is invalid. Should return less than zero, "
                 ++ "zero and greater than zero according to JS specifications.") in
    (* the names the callback of map can read: its parameters, the constants
       of the enclosing arrow function, the destructured parameter, the module *)
    let callback_scope (lhs rhs operator : Value) : Scope Value :=
      ([("lhs", lhs); ("rhs", rhs); ("operator", operator);
        ("paramOrder", Opaque "paramOrder"); ("legitOperators", Arr legitOperators);
        ("operatorVal", Opaque "operatorVal"); ("stdVal", Opaque "stdVal")]
       ++ List.map (fun n => (n, get n arg)) parameters1
       ++ module_scope)%list in
    normalized <-
      mapM (fun '(lhs, rhs, operator, _) =>
              let p := paramOrder lhs rhs in
              let o := operatorVal operator in
              val <- resolve (callback_scope lhs rhs operator) "val" ;;
              Return [p; o; Plain val])
           [(lhs1, rhs1, operator1, val1); (lhs2, rhs2, operator2, val2)] ;;
    let nonResult := List.find isSkip (List.concat normalized) in
    match nonResult with
    | None =>
        let product (row : list Result) : Value :=
          match List.map value_of_cell row with
          | [p; o; v] => mul (mul p o) v
          | _ => NaN
          end in
        let matrix :=
          (List.map product normalized
           ++ match val3 with Arr xs => xs | v => [v] end)%list in
        let sum := fold_left (fun acc i => add acc i) matrix (Number 0) in
        if strict_equals sum (Number 2)
        then Return (Plain (Obj [("field", lhsProp1); ("ascending", Boolean true)]))
        else if strict_equals sum (Number (-2))
             then Return (Plain (Obj [("field", lhsProp1); ("ascending", Boolean false)]))
             else Return (Skip "Invalid sort expression.")
    | Some skip => Return skip
    end
  else Return (Skip "All fields in the sort expression must be the same.").

Section CompareFn1.

(** The schema of ./common/integer, which is not among the sources. *)
Variable integer : string -> Schema.

Definition compareFn1_schema : Schema :=
  obj [("type", literal (Str "ArrowFunctionExpression"));
       ("params",
         array [obj [("type", literal (Str "Identifier"));
                     ("name", capture (Some "name"))];
                obj [("type", literal (Str "Identifier"));
                     ("name", capture (Some "name"))]]);
       ("body",
         obj [("type", literal (Str "ConditionalExpression"));
              ("test",
                obj [("type", literal (Str "BinaryExpression"));
                     ("left",
                       obj [("type", literal (Str "MemberExpression"));
                            ("object", obj [("type", literal (Str "Identifier"));
                                            ("name", capture (Some "lhs1"))]);
                            ("property", obj [("type", literal (Str "Identifier"));
                                              ("name", capture (Some "lhsProp1"))])]);
                     ("operator", capture (Some "operator1"));
                     ("right",
                       obj [("type", literal (Str "MemberExpression"));
                            ("object", obj [("type", literal (Str "Identifier"));
                                            ("name", capture (Some "rhs1"))]);
                            ("property", obj [("type", literal (Str "Identifier"));
                                              ("name", capture (Some "rhsProp1"))])])]);
              ("consequent", integer "val1");
              ("alternate",
                obj [("type", literal (Str "ConditionalExpression"));
                     ("test",
                       obj [("type", literal (Str "BinaryExpression"));
                            ("left",
                              obj [("type", literal (Str "MemberExpression"));
                                   ("object", obj [("type", literal (Str "Identifier"));
                                                   ("name", capture (Some "lhs2"))]);
                                   ("property", obj [("type", literal (Str "Identifier"));
                                                     ("name", capture (Some "lhsProp2"))])]);
                            ("operator", capture (Some "operator2"));
                            ("right",
                              obj [("type", literal (Str "MemberExpression"));
                                   ("object", obj [("type", literal (Str "Identifier"));
                                                   ("name", capture (Some "rhs2"))]);
                                   ("property", obj [("type", literal (Str "Identifier"));
                                                     ("name", capture (Some "rhsProp2"))])])]);
                     ("consequent", integer "val2");
                     ("alternate", integer "val3")])])].

(** [console.log("::::", result) || result instanceof Match
      ? getSortExpression1(result.value) : result]:
    the log returns undefined, so the test is [result instanceof Match]. *)
Definition compareFn1_build (result : Result) : Completion Result :=
  if isMatch result then getSortExpression1 (value_of result) else Return result.

Definition compareFn1 (input : Value) : Completion Result :=
  compareFn1_build (run compareFn1_schema input).

End CompareFn1.

Definition sortExpression2Ascending : Schema :=
  obj [("type", literal (Str "BinaryExpression"));
       ("left",
         obj [("type", literal (Str "MemberExpression"));
              ("object", obj [("type", literal (Str "Identifier"));
                              ("name", capture (Some "lhsObject"))]);
              ("property", obj [("type", literal (Str "Identifier"));
                                ("name", capture (Some "lhsProp"))])]);
       ("operator", literal (Str "-"));
       ("right",
         obj [("type", literal (Str "MemberExpression"));
              ("object", obj [("type", literal (Str "Identifier"));
                              ("name", capture (Some "rhsObject"))]);
              ("property", obj [("type", literal (Str "Identifier"));
                                ("name", capture (Some "rhsProp"))])])].

Definition sortExpression2Descending : Schema :=
  obj [("type", literal (Str "UnaryExpression"));
       ("operator", capture (Some "operator"));
       ("argument", sortExpression2Ascending)].

Definition getSortExpression2 (arg : Value) : Completion Result :=
  _ <- member arg "param1" ;;
  let param1 := get "param1" arg in
  let param2 := get "param2" arg in
  let lhsObject := get "lhsObject" arg in
  let lhsProp := get "lhsProp" arg in
  let rhsObject := get "rhsObject" arg in
  let rhsProp := get "rhsProp" arg in
  let operator := get "operator" arg in
  let getSortOrder (negated : bool) : bool :=
    (negb negated && strict_equals param1 lhsObject)
    || (negated && strict_equals param1 rhsObject) in
  if every (fun p => includes [lhsObject; rhsObject] p) [param1; param2]
  then
    if strict_equals lhsProp rhsProp
    then Return (Plain (Obj [("field", lhsProp);
                             ("ascending",
                               Boolean (getSortOrder (strict_equals operator (Str "-"))))]))
    else Return (Skip ("The sort expression must reference the same property "
                       ++ "on compared objects."))
  else Return (Skip ("The sort expression must reference parameters "
                     ++ toString param1 ++ " and " ++ toString param2 ++ ".")).

Definition compareFn2_schema : Schema :=
  obj [("type", literal (Str "ArrowFunctionExpression"));
       ("params",
         array [obj [("type", literal (Str "Identifier"));
                     ("name", capture (Some "name"))];
                obj [("type", literal (Str "Identifier"));
                     ("name", capture (Some "name"))]]);
       ("body", any [sortExpression2Ascending; sortExpression2Descending])].

(** [result instanceof Match
      ? getSortExpression2({ param1: result.value.params[0].name,
                             param2: result.value.params[1].name,
                             ...result.value.body })
      : result] *)
Definition compareFn2_build (result : Result) : Completion Result :=
  if isMatch result
  then
    first <- index (get "params" (value_of result)) 0 ;;
    param1 <- member first "name" ;;
    second <- index (get "params" (value_of result)) 1 ;;
    param2 <- member second "name" ;;
    getSortExpression2
      (Obj (spread [("param1", param1); ("param2", param2)]
              (DbStatements.own (get "body" (value_of result)))))
  else Return result.

Definition compareFn2 (input : Value) : Completion Result :=
  compareFn2_build (run compareFn2_schema input).

(** The build function of the exported schema:
    [result instanceof Match
       ? sort(result.value.object, { fields: result.value.arguments })
       : result] *)
Definition build (result : Result) : Completion Result :=
  if isMatch result
  then
    object <- member (value_of result) "object" ;;
    arguments <- member (value_of result) "arguments" ;;
    Return (Plain (DbStatements.sort object (Obj [("fields", arguments)])))
  else Return result.

End SortSchema.

(* ================================================================== *)
(** ** schemas/update.js *)

Module UpdateSchema.

(** The bindings of the module: its imports, nothing else. *)
Definition module_scope : Scope Value :=
  List.map (fun n => (n, Opaque n))
    ["source"; "collection"; "parse"; "capture"; "exists"; "any"; "array";
     "repeatingItem"; "Match"; "composite"; "R"; "update"].

(** The bindings of the exported function around the build function. *)
Definition function_scope : Scope Value :=
  (List.map (fun n => (n, Opaque n)) ["state"; "analysisState"; "getArrowFunctionBody"]
   ++ module_scope)%list.

(** [R.pick(keys, x)]: the listed properties that [x] has. *)
Fixpoint pick (keys : list string) (x : Value) : list (string * Value) :=
  match keys with
  | [] => []
  | k :: rest => if has k x then (k, get k x) :: pick rest x else pick rest x
  end.

(** An object used as a schema: every property is a literal. *)
Definition literally (o : Value) : Schema :=
  obj (List.map (fun kv => (fst kv, literal (snd kv))) (DbStatements.own o)).

(** There are two types of update expressions.
      1. STANDARD  x => x.id === 10 ? { ...x, active: true } : x
      2. INVERSE   x => x.id !== 10 ? x : { ...x, active: true }
    [capture({ selector: "path" })] captures the path of the test. *)
Definition getArrowFunctionBody (identifier : Value) : Schema :=
  let conditionalExpression :=
    [("type", literal (Str "ConditionalExpression")); ("test", capture None)] in
  let updatedObject :=
    obj [("type", literal (Str "ObjectExpression"));
         ("properties",
           array [obj [("type", literal (Str "SpreadProperty"));
                       ("argument", literally identifier)];
                  repeatingItem (capture None)])] in
  let identifierPropsOf (x : Value) : Value :=
    Obj (pick (List.map fst (DbStatements.own identifier)) x) in
  let standardConditionExpression :=
    obj (conditionalExpression
         ++ [("consequent", updatedObject);
             ("alternate", exists_ (fun x => equals (identifierPropsOf x) identifier))])%list in
  let inverseConditionExpression :=
    obj (conditionalExpression
         ++ [("consequent", exists_ (fun x => equals (identifierPropsOf x) identifier));
             ("alternate", updatedObject)])%list in
  any [standardConditionExpression; inverseConditionExpression].

(** [new Skip(reason)] where the name Skip is looked up in [scope]. *)
Definition new_Skip (scope : Scope Value) (reason : string) : Completion Result :=
  _ <- resolve scope "Skip" ;;
  Return (Skip reason).

(** The build function of the schema.  [result.value] holds the collection
    matched on the left under [left], the collection the map is called on
    under [object], and under [arguments] the [{ params, body }] of the arrow
    function. *)
Definition build (result : Result) : Completion Result :=
  value <- read_value result ;;
  left_ <- member value "left" ;;
  object <- member value "object" ;;
  let scope : Scope Value :=
    ([("result", Opaque "result"); ("context", Opaque "context");
      ("obj", Opaque "obj")] ++ function_scope)%list in
  if equals left_ object
  then
    first <- index (get "arguments" value) 0 ;;
    params <- member first "params" ;;
    body <- member first "body" ;;
    param <- index params 0 ;;
    name <- member param "name" ;;
    let identifier := Obj [("type", Str "Identifier"); ("name", name)] in
    let arrowFunctionBody := getArrowFunctionBody identifier in
    let update := run arrowFunctionBody body in
    let scope' : Scope Value :=
      ([("params", params); ("body", body); ("identifier", identifier);
        ("arrowFunctionBody", Opaque "arrowFunctionBody");
        ("update", Opaque "update")] ++ scope)%list in
    if isMatch update
    then Return (Closure (new_Skip scope' "yoyo!"))
    else Return update
  else new_Skip scope "The result of the map() must be assigned to the same collection.".

(** The Match the structural part of the schema produces for
    [left = object.map(param => body)], [left] and [object] being the
    commands of the two collection references. *)
Definition matched (left_ object : Value) (param body : Node) : Result :=
  Match (Obj [("left", left_); ("object", object);
              ("arguments",
                Arr [Obj [("params", Arr [node_of param]); ("body", node_of body)]])]).

End UpdateSchema.

(* ================================================================== *)
(** ** The read analyzer *)

Module ReadAnalyzer.

(** The configuration of the plugin: [identifiers] is the list of root
    identifiers when it is set; a package name is a string when it is set. *)
Record Config : Type := {
  identifiers : option (list string);
  clientPackageName : option string;
  serverPackageName : option string
}.

(** A root declaration recorded in the state: for each name of its scope the
    nodes that reference the binding ([ref.scope.bindings[name].referencePaths]),
    and the arguments of the call that initialises it
    ([ref.node.init.arguments], when there is such a call). *)
Record RootDeclaration : Type := {
  bindings : list (string * list Node);
  init_arguments : option (list Node)
}.

(** The state of one file; [rootDeclarations] is not set in the initial
    state [{}]. *)
Record State : Type := {
  rootDeclarations : option (list RootDeclaration)
}.

Fixpoint binding (name : string) (bs : list (string * list Node)) : option (list Node) :=
  match bs with
  | [] => None
  | (n, refs) :: rest => if String.eqb name n then Some refs else binding name rest
  end.

(** [ref.scope.bindings[name] &&
     ref.scope.bindings[name].referencePaths.some(p => p.node === object)] *)
Definition references (name : string) (object : Node) (ref : RootDeclaration) : bool :=
  match binding name (bindings ref) with
  | Some refs => existsb (fun p => node_eqb_identifier p object) refs
  | None => false
  end.

Definition isRoot (path : Node) (state : State) (config : Config) : Completion bool :=
  if isMemberExpression (Some path) && isIdentifier (field "object" path)
  then
    match identifiers config with
    | Some ids =>
        object <- get_path (Some path) "object" ;;
        name <- node_scalar object "name" ;;
        Return (includes (List.map Str ids) name)
    | None =>
        match rootDeclarations state with
        | None => Throw (TypeError "Cannot read property 'some' of undefined")
        | Some refs =>
            match field "object" path with
            | Some object =>
                Return (existsb (references (toString (scalar "name" object)) object) refs)
            | None => Return false
            end
        end
    end
  else Return false.

(** [{ db: path.node.object.name, collection: path.node.property.name }] *)
Definition root_args (path : Node) : Completion Value :=
  object <- get_path (Some path) "object" ;;
  db <- node_scalar object "name" ;;
  property <- get_path (Some path) "property" ;;
  collection <- node_scalar property "name" ;;
  Return (Obj [("db", db); ("collection", collection)]).

Definition getRootArgs (path : Node) (state : State) (config : Config)
  : Completion Value :=
  match identifiers config with
  | Some _ => root_args path
  | None =>
      match rootDeclarations state with
      | None => Throw (TypeError "Cannot read property 'find' of undefined")
      | Some [] => Throw (TypeError "Cannot read property 'node' of undefined")
      | Some refs =>
          (* the callback of find reads path.node.object.name *)
          object <- get_path (Some path) "object" ;;
          name <- node_scalar object "name" ;;
          match object with
          | None => Throw (TypeError "Cannot read property 'name' of undefined")
          | Some o =>
              match List.find (references (toString name) o) refs with
              | None => Throw (TypeError "Cannot read property 'node' of undefined")
              | Some rootDeclaration =>
                  (* const db = rootDeclaration.node.init.arguments[0].value *)
                  match init_arguments rootDeclaration with
                  | None => Throw (TypeError "Cannot read property 'arguments' of undefined")
                  | Some [] => Throw (TypeError "Cannot read property 'value' of undefined")
                  | Some (_ :: _) => root_args path
                  end
              end
          end
      end
  end.

(** Modelled from the spec: ast-asserts is not among the sources.  The spec
    has filter and map take a one-parameter function, sort a two-parameter
    function, and the values of a map and the operands of a sort be property
    accesses on a parameter; a deviation is a fatal validation error. *)
Definition assertUnaryArrowFunction (fnExpr : Path) : Completion unit :=
  match fnExpr with
  | Some (ArrowFunctionExpression [_] _) => Return tt
  | _ => Throw (Err "Expected an arrow function with one parameter.")
  end.

Definition assertBinaryArrowFunction (fnExpr : Path) : Completion unit :=
  match fnExpr with
  | Some (ArrowFunctionExpression [_; _] _) => Return tt
  | _ => Throw (Err "Expected an arrow function with two parameters.")
  end.

Definition assertMemberExpressionUsesParameter (path : Path) (names : list Value)
  : Completion unit :=
  match path with
  | Some (MemberExpression (Identifier name _) _) =>
      if includes names (Str name) then Return tt
      else Throw (Err "Expected a property access on a parameter.")
  | _ => Throw (Err "Expected a property access on a parameter.")
  end.

(** [path[i]] in the array of the argument paths. *)
Definition at_ (path : list Node) (i : nat) : Path := nth_error path i.

(** [paths[i].node.name]: the element must be there. *)
Definition name_at (paths : list Node) (i : nat) : Completion Value :=
  node_scalar (nth_error paths i) "name".

Definition getFilterArgs (path : list Node) (state : State) (config : Config)
  : Completion Value :=
  let fnExpr := at_ path 0 in
  assertUnaryArrowFunction fnExpr ;;;
  body <- get_path fnExpr "body" ;;
  Return (match body with Some n => node_of n | None => Undefined end).

Definition getMapArgs (path : list Node) (state : State) (config : Config)
  : Completion Value :=
  let fnExpr := at_ path 0 in
  assertUnaryArrowFunction fnExpr ;;;
  body <- get_path fnExpr "body" ;;
  if negb (isObjectExpression body)
  then Throw (Err "The map expression should return an object.")
  else
    params <- get_list fnExpr "params" ;;
    paramName <- name_at params 0 ;;
    properties <- get_list body "properties" ;;
    mapM (fun prop =>
            value <- get_path (Some prop) "value" ;;
            assertMemberExpressionUsesParameter value [paramName])
         properties ;;;
    fields <-
      mapM (fun p =>
              key <- get_path (Some p) "key" ;;
              keyName <- node_scalar key "name" ;;
              value <- get_path (Some p) "value" ;;
              property <- get_path value "property" ;;
              propertyName <- node_scalar property "name" ;;
              Return (Arr [keyName; propertyName]))
           properties ;;
    Return (Arr fields).

Definition getSliceArgs (path : list Node) (state : State) (config : Config)
  : Completion Value :=
  from <- node_scalar (at_ path 0) "value" ;;
  to <- node_scalar (at_ path 1) "value" ;;
  Return (Obj [("from", from); ("to", to)]).

Definition getSortArgs (path : list Node) (state : State) (config : Config)
  : Completion Value :=
  let fnExpr := at_ path 0 in
  assertBinaryArrowFunction fnExpr ;;;
  params <- get_list fnExpr "params" ;;
  firstParam <- name_at params 0 ;;
  secondParam <- name_at params 1 ;;
  body <- get_path fnExpr "body" ;;
  left_ <- get_path body "left" ;;
  right_ <- get_path body "right" ;;
  operator <- get_scalar body "operator" ;;
  if negb (includes [Str ">"; Str ">="; Str "<"; Str "<="] operator)
  then Throw (Err "The sort function should use the greater than or less than operator.")
  else
    assertMemberExpressionUsesParameter left_ [firstParam; secondParam] ;;;
    leftProperty <- get_path left_ "property" ;;
    leftField <- node_scalar leftProperty "name" ;;
    rightProperty <- get_path right_ "property" ;;
    rightField <- node_scalar rightProperty "name" ;;
    if negb (strict_equals leftField rightField)
    then Throw (Err "The sort expression should use the same field.")
    else
      leftObjectPath <- get_path left_ "object" ;;
      leftObject <- node_scalar leftObjectPath "name" ;;
      rightObjectPath <- get_path right_ "object" ;;
      rightObject <- node_scalar rightObjectPath "name" ;;
      let areBothParamsReferenced :=
        every (fun i => includes [leftObject; rightObject] i) [firstParam; secondParam] in
      if negb areBothParamsReferenced
      then Throw (Err "The sort expression should reference both parameters in the arrow function.")
      else
        Return (Arr [Obj [("field", leftField);
                          ("ascending",
                            Boolean ((strict_equals operator (Str ">")
                                      && strict_equals firstParam leftObject)
                                     || (strict_equals operator (Str "<")
                                         && strict_equals firstParam rightObject)))]]).

(** An entry of the registry.  [builder] is called with the list of its
    arguments; [args] reads either the node itself (the root) or the argument
    paths of a call. *)
Inductive Extractor : Type :=
| OfNode (f : Node -> State -> Config -> Completion Value)
| OfArguments (f : list Node -> State -> Config -> Completion Value).

Record NodeDefinition : Type := {
  id : string;
  name : option string;
  type : string;
  predicate : option (Node -> State -> Config -> Completion bool);
  follows : list string;
  builder : list Value -> Completion Value;
  args : option Extractor
}.

(** Modelled from the spec: ./analyze-root is not among the sources.  The
    spec has the root resolved by a predicate that recognizes a property
    access off a recognized root binding or a configured identifier, with an
    extractor that yields [{ db, collection }]: the functions isRoot and
    getRootArgs above. *)
Definition rootAnalyzer_isRoot := isRoot.
Definition rootAnalyzer_getRootArgs := getRootArgs.

Definition argument (i : nat) (arguments : list Value) : Value :=
  nth i arguments Undefined.

Definition nodeDefinitions : list NodeDefinition :=
  [ {| id := "root"; name := None; type := "predicate";
       predicate := Some rootAnalyzer_isRoot;
       follows := [];
       builder := fun a => DbStatements.createCollection (argument 0 a);
       args := Some (OfNode rootAnalyzer_getRootArgs) |};
    {| id := "filter"; name := Some "filter"; type := "CallExpression";
       predicate := None;
       follows := ["root"; "sort"];
       builder := fun a => Return (DbStatements.filter (argument 0 a) (argument 1 a));
       args := Some (OfArguments getFilterArgs) |};
    {| id := "map"; name := Some "map"; type := "CallExpression";
       predicate := None;
       follows := ["root"; "filter"; "sort"; "slice"];
       builder := fun a => Return (DbStatements.map (argument 0 a) (argument 1 a));
       args := Some (OfArguments getMapArgs) |};
    {| id := "slice"; name := Some "slice"; type := "CallExpression";
       predicate := None;
       follows := ["root"; "filter"; "sort"; "map"];
       builder := fun a => DbStatements.slice (argument 0 a) (argument 1 a);
       args := Some (OfArguments getSliceArgs) |};
    {| id := "sort"; name := Some "sort"; type := "CallExpression";
       predicate := None;
       follows := ["root"; "filter"];
       builder := fun a => Return (DbStatements.sort (argument 0 a) (argument 1 a));
       args := Some (OfArguments getSortArgs) |};
    {| id := "length"; name := Some "length"; type := "MemberExpression";
       predicate := None;
       follows := ["root"; "filter"];
       builder := fun a => Return (DbStatements.length (argument 0 a));
       args := None |} ].

Definition mem (x : string) (xs : list string) : bool := existsb (String.eqb x) xs.

Definition named (d : NodeDefinition) (n : string) : bool :=
  match name d with Some m => String.eqb m n | None => false end.

(** Does the node have the shape and the name of the definition? *)
Definition fits (d : NodeDefinition) (path : Node) (state : State) (config : Config)
  : Completion bool :=
  if String.eqb (type d) "predicate" then
    match predicate d with
    | Some p => p path state config
    | None => Return false
    end
  else if String.eqb (type d) "CallExpression" then
    Return match path with
           | CallExpression (MemberExpression _ (Identifier n _)) _ => named d n
           | _ => false
           end
  else if String.eqb (type d) "MemberExpression" then
    Return match path with
           | MemberExpression _ (Identifier n _) => named d n
           | _ => false
           end
  else Return false.

(** The first definition, among those whose id is allowed, that the node fits. *)
Fixpoint candidate (defs : list NodeDefinition) (allowed : list string)
  (path : Node) (state : State) (config : Config)
  : Completion (option NodeDefinition) :=
  match defs with
  | [] => Return None
  | d :: rest =>
      if mem (id d) allowed then
        ok <- fits d path state config ;;
        if ok then Return (Some d) else candidate rest allowed path state config
      else candidate rest allowed path state config
  end.

(** The arguments the extractor of a definition is run on. *)
Definition extract (d : NodeDefinition) (path : Node) (state : State) (config : Config)
  : Completion Value :=
  match args d with
  | None => Return Undefined
  | Some (OfNode f) => f path state config
  | Some (OfArguments f) =>
      arguments <- get_list (Some path) "arguments" ;;
      f arguments state config
  end.

(** The inner object of an operation node: the object of the callee of a
    call, the object of a property access. *)
Definition inner (path : Node) : option Node :=
  match path with
  | CallExpression (MemberExpression object _) _ => Some object
  | MemberExpression object _ => Some object
  | _ => None
  end.

(** Modelled from the spec: ../analyze-chain (makeAnalyzer) is not among the
    sources.  Section 4.3 gives the transition: (1) find the definition,
    among the allowed ids, that matches the shape and the name of the node;
    (2) analyze the inner object of the node to resolve the predecessor
    operation and its command; (3) check that the id of the predecessor is in
    the follows of the definition, and produce nothing if it is not; (4) run
    the extractor of the definition on the node, a failure of which is a
    thrown error; (5) call the builder with the command of the predecessor
    and the arguments.  The root is resolved by its predicate and built from
    its arguments alone.  The result is the id of the operation with its
    command, or nothing. *)
Fixpoint analyze (defs : list NodeDefinition) (state : State) (config : Config)
  (allowed : list string) (path : Node) {struct path}
  : Completion (option (string * Value)) :=
  let predecessor : Completion (option (string * Value)) :=
    match path with
    | CallExpression (MemberExpression object _) _ =>
        analyze defs state config (List.map id defs) object
    | MemberExpression object _ =>
        analyze defs state config (List.map id defs) object
    | _ => Return None
    end in
  found <- candidate defs allowed path state config ;;
  match found with
  | None => Return None
  | Some d =>
      if String.eqb (type d) "predicate" then
        a <- extract d path state config ;;
        command <- builder d [a] ;;
        Return (Some (id d, command))
      else
        resolved <- predecessor ;;
        match resolved with
        | None => Return None
        | Some (previous, source) =>
            if mem previous (follows d) then
              a <- extract d path state config ;;
              command <- builder d [source; a] ;;
              Return (Some (id d, command))
            else Return None
        end
  end.

Definition makeAnalyzer (nodeDefinitions : list NodeDefinition)
  (isRoot : Node -> State -> Config -> Completion bool)
  (path : Node) (allowed : list string) (state : State) (config : Config)
  : Completion (option Value) :=
  r <- analyze nodeDefinitions state config allowed path ;;
  Return (option_map snd r).

Definition analyzer := makeAnalyzer nodeDefinitions isRoot.

Definition analyzeCallExpression (path : Node) (state : State) (config : Config)
  : Completion (option Value) :=
  analyzer path ["filter"; "map"; "slice"; "sort"] state config.

Definition analyzeMemberExpression (path : Node) (state : State) (config : Config)
  : Completion (option Value) :=
  analyzer path ["root"; "length"] state config.

End ReadAnalyzer.

(* ================================================================== *)
(** ** The plugin *)

Module Plugin.

Import ReadAnalyzer.

Definition set_string (s : option string) : bool :=
  match s with Some x => negb (String.eqb x "") | None => false end.

Definition set_list (l : option (list string)) : bool :=
  match l with Some _ => true | None => false end.

(** [if (!config.identifiers &&
         !(config.clientPackageName || config.serverPackageName)) throw ...]:
    a list is truthy, a string is truthy unless it is empty, a property that
    is not set is undefined. *)
Definition ensureValidConfiguration (config : Config) : Completion unit :=
  if negb (set_list (identifiers config))
     && negb (set_string (clientPackageName config)
              || set_string (serverPackageName config))
  then Throw (Err ("Either a db identifier, or both clientPackageName and "
                   ++ "serverPackageName has to be set in configuration."))
  else Return tt.

Definition override {A} (over base : option A) : option A :=
  match over with Some x => Some x | None => base end.

(** [{ ...config, ...opts }] *)
Definition merge_config (config opts : Config) : Config :=
  {| identifiers := override (identifiers opts) (identifiers config);
     clientPackageName := override (clientPackageName opts) (clientPackageName config);
     serverPackageName := override (serverPackageName opts) (serverPackageName config) |}.

(** What a run of the plugin over a file does, in order. *)
Inductive Event : Type :=
| Validate (config : Config)
| Analyze (visitor : string) (path : Node)
| PathSkip (path : Node)
| Transform (visitor : string) (path : Node) (analysis : Value).

(** [this.config = this.opts ? { ...config, ...this.opts } : config] *)
Definition this_config (config : Config) (opts : option Config) : Config :=
  match opts with
  | Some o => merge_config config o
  | None => config
  end.

(** [pre]: sets [this.config] and validates it. *)
Definition pre (config : Config) (opts : option Config)
  : list Event * Completion Config :=
  let this_config := this_config config opts in
  ([Validate this_config],
   ensureValidConfiguration this_config ;;; Return this_config).

Section Visitor.

(** The analyzers of ./analyzers that are not among the sources: the one of
    import declarations, which may record a root declaration in the state,
    and the one of assignments. *)
Variable analyzeImportDeclaration : Node -> State -> Config -> Completion (option Value * State).
Variable analyzeAssignmentExpression : Node -> State -> Config -> Completion (option Value).

Definition keep_state (analyze : Node -> State -> Config -> Completion (option Value))
  (path : Node) (state : State) (config : Config) : Completion (option Value * State) :=
  analysis <- analyze path state config ;;
  Return (analysis, state).

(** [const analysis = analyze(path, state, config);
     if (analysis) { path.skip(); transform(path, analysis, state, config); }] *)
Definition transformPath (visitor : string) (path : Node)
  (analyze : Node -> State -> Config -> Completion (option Value * State))
  (state : State) (config : Config) : list Event * Completion State :=
  match analyze path state config with
  | Throw e => ([Analyze visitor path], Throw e)
  | Return (Some analysis, state') =>
      if truthy analysis
      then ([Analyze visitor path; PathSkip path; Transform visitor path analysis],
            Return state')
      else ([Analyze visitor path], Return state')
  | Return (None, state') => ([Analyze visitor path], Return state')
  end.

(** The visitor: one handler per kind of node. *)
Definition visitor (path : Node) (state : State) (config : Config)
  : list Event * Completion State :=
  match path with
  | ImportDeclaration _ =>
      transformPath "ImportDeclaration" path analyzeImportDeclaration state config
  | AssignmentExpression _ _ _ =>
      transformPath "AssignmentExpression" path
        (keep_state analyzeAssignmentExpression) state config
  | MemberExpression _ _ =>
      transformPath "MemberExpression" path
        (keep_state analyzeMemberExpression) state config
  | CallExpression _ _ =>
      transformPath "CallExpression" path
        (keep_state analyzeCallExpression) state config
  | _ => ([], Return state)
  end.

(** The host calls the visitor on the paths of the file in source order; a
    thrown error ends the traversal. *)
Fixpoint traverse (paths : list Node) (state : State) (config : Config)
  : list Event * Completion State :=
  match paths with
  | [] => ([], Return state)
  | path :: rest =>
      match visitor path state config with
      | (events, Throw e) => (events, Throw e)
      | (events, Return state') =>
          let (events', outcome) := traverse rest state' config in
          ((events ++ events')%list, outcome)
      end
  end.

(** One file: the host calls [pre], then traverses; the state starts as [{}]. *)
Definition run (config : Config) (opts : option Config) (paths : list Node)
  : list Event * Completion State :=
  match pre config opts with
  | (events, Throw e) => (events, Throw e)
  | (events, Return this_config) =>
      let (events', outcome) :=
        traverse paths {| rootDeclarations := None |} this_config in
      ((events ++ events')%list, outcome)
  end.

End Visitor.

End Plugin.

(* ================================================================== *)
(** ** Inputs and statements the theorems are about *)

Module Inputs.

Import SortSchema.

(** An identifier with its position. *)
Definition Ident : Type := (string * nat)%type.

Definition ident (i : Ident) : Node := Identifier (fst i) (snd i).

(** [(p1, p2) => lo.lp - ro.rp], or with [negation = Some op] the unary
    expression [(p1, p2) => op (lo.lp - ro.rp)]. *)
Definition subtraction_comparator (p1 p2 : Ident) (negation : option string)
  (lo lp ro rp : Ident) : Node :=
  let difference :=
    BinaryExpression "-" (MemberExpression (ident lo) (ident lp))
                         (MemberExpression (ident ro) (ident rp)) in
  ArrowFunctionExpression [ident p1; ident p2]
    match negation with
    | Some op => UnaryExpression op difference
    | None => difference
    end.

(** The captures of the ternary idiom
    [(param1, param2) => lhs1.prop op1 rhs1.prop ? val1
                          : lhs2.prop op2 rhs2.prop ? val2 : val3]. *)
Definition ternary_captures (param1 param2 : string) (prop : string)
  (lhs1 operator1 rhs1 : string) (val1 : Z)
  (lhs2 operator2 rhs2 : string) (val2 val3 : Z) : Value :=
  Obj [("param1", Str param1); ("param2", Str param2);
       ("lhs1", Str lhs1); ("lhsProp1", Str prop);
       ("rhs1", Str rhs1); ("rhsProp1", Str prop);
       ("operator1", Str operator1); ("val1", Number val1);
       ("lhs2", Str lhs2); ("lhsProp2", Str prop);
       ("rhs2", Str rhs2); ("rhsProp2", Str prop);
       ("operator2", Str operator2); ("val2", Number val2);
       ("val3", Number val3)].

(** The normalization of the ternary idiom as the specification words it:
    the sign of the operator, the sign of the order of the parameters, the
    clamped sign of the literal of the branch; the sum of the two products
    and of the trailing literal; ascending for 2, descending for -2. *)
Definition operator_sign (o : string) : option Z :=
  if String.eqb o ">" || String.eqb o ">=" then Some 1%Z
  else if String.eqb o "<" || String.eqb o "<=" then Some (-1)%Z
  else if String.eqb o "==" || String.eqb o "===" then Some 0%Z
  else None.

Definition order_sign (param1 param2 lhs rhs : string) : option Z :=
  if String.eqb param1 lhs && String.eqb param2 rhs then Some 1%Z
  else if String.eqb param1 rhs && String.eqb param2 lhs then Some (-1)%Z
  else None.

Definition clamped_sign (v : Z) : Z :=
  if (1 <? v)%Z then 1%Z else if (v <? 0)%Z then (-1)%Z else 0%Z.

Definition specified_total (param1 param2 : string)
  (lhs1 operator1 rhs1 : string) (val1 : Z)
  (lhs2 operator2 rhs2 : string) (val2 val3 : Z) : option Z :=
  match order_sign param1 param2 lhs1 rhs1, operator_sign operator1,
        order_sign param1 param2 lhs2 rhs2, operator_sign operator2 with
  | Some p1, Some o1, Some p2, Some o2 =>
      Some (p1 * o1 * clamped_sign val1 + p2 * o2 * clamped_sign val2 + val3)%Z
  | _, _, _, _ => None
  end.

Definition specified_getSortExpression1 (param1 param2 prop : string)
  (lhs1 operator1 rhs1 : string) (val1 : Z)
  (lhs2 operator2 rhs2 : string) (val2 val3 : Z) : Result :=
  match specified_total param1 param2 lhs1 operator1 rhs1 val1
                        lhs2 operator2 rhs2 val2 val3 with
  | Some 2%Z => Plain (Obj [("field", Str prop); ("ascending", Boolean true)])
  | Some (-2)%Z => Plain (Obj [("field", Str prop); ("ascending", Boolean false)])
  | _ => Skip "Invalid sort expression."
  end.



(** The states in which every recorded root declaration is initialised by a
    call that has an argument. *)
Definition initialised (state : ReadAnalyzer.State) : bool :=
  match ReadAnalyzer.rootDeclarations state with
  | None => true
  | Some refs =>
      forallb (fun ref => match ReadAnalyzer.init_arguments ref with
                          | Some (_ :: _) => true
                          | _ => false
                          end) refs
  end.

(** A continuation node of a pipeline: tagged "query", with a method and a
    source. *)
Definition continuation (node : Value) : Prop :=
  get "type" node = Str "query"
  /\ has "method" node = true /\ has "source" node = true.

(** A unary expression negates when its operator is the minus sign. *)
Definition negated (negation : option string) : bool :=
  match negation with Some op => String.eqb op "-" | None => false end.

(** Each formal is the object of one of the two operands. *)
Definition referenced (p1 p2 lo ro : string) : Prop :=
  (lo = p1 \/ ro = p1) /\ (lo = p2 \/ ro = p2).

(** The two operand objects are the two formals, in either order. *)
Definition exactly_the_formals (p1 p2 lo ro : string) : Prop :=
  (lo = p1 /\ ro = p2) \/ (lo = p2 /\ ro = p1).

(** A matching operation returns a Match or a Skip. *)
Definition outcome (r : Result) : Prop :=
  match r with Match _ | Skip _ => True | _ => False end.

(** The commands of two collections, and the two forms of an update:
    [t.id === 10 ? { ...t, active: true } : t] and
    [t.id !== 10 ? t : { ...t, active: true }]. *)
Definition todos_command : Value :=
  Obj [("type", Str "query"); ("db", Str "root"); ("collection", Str "todos")].

Definition users_command : Value :=
  Obj [("type", Str "query"); ("db", Str "root"); ("collection", Str "users")].

Definition updated_object : Node :=
  ObjectExpression [SpreadProperty (Identifier "t" 50);
                    ObjectProperty (Identifier "active" 56) (BooleanLiteral true)].

Definition standard_update_body : Node :=
  ConditionalExpression
    (BinaryExpression "===" (MemberExpression (Identifier "t" 35) (Identifier "id" 37))
                            (NumericLiteral 10))
    updated_object (Identifier "t" 72).

Definition inverse_update_body : Node :=
  ConditionalExpression
    (BinaryExpression "!==" (MemberExpression (Identifier "t" 35) (Identifier "id" 37))
                            (NumericLiteral 10))
    (Identifier "t" 48) updated_object.

(** [object.method(arguments)] *)
Definition method_call (object : Node) (method : Ident) (arguments : list Node) : Node :=
  CallExpression (MemberExpression object (ident method)) arguments.

(** The captures the build function of compareFn2 hands to
    getSortExpression2 for a subtraction comparator. *)
Definition subtraction_captures (p1 p2 : Ident) (negation : option string)
  (lo lp ro rp : Ident) : Value :=
  Obj ([("param1", Str (fst p1)); ("param2", Str (fst p2))]
       ++ match negation with
          | Some op => [("operator", Str op)]
          | None => []
          end
       ++ [("lhsObject", Str (fst lo)); ("lhsProp", Str (fst lp));
           ("rhsObject", Str (fst ro)); ("rhsProp", Str (fst rp))])%list.

(** [(p1, p2) => lo.lp operator ro.rp] *)
Definition relational_comparator (p1 p2 : Ident) (operator : string)
  (lo lp ro rp : Ident) : Node :=
  ArrowFunctionExpression [ident p1; ident p2]
    (BinaryExpression operator (MemberExpression (ident lo) (ident lp))
                               (MemberExpression (ident ro) (ident rp))).

Definition relational (operator : string) : bool :=
  ReadAnalyzer.mem operator [">"; ">="; "<"; "<="].

(** [{ field, ascending }] *)
Definition sort_descriptor (field : string) (ascending : bool) : Value :=
  Obj [("field", Str field); ("ascending", Boolean ascending)].

(** [db.collection], and the command of the collection. *)
Definition root_reference (db collection : Ident) : Node :=
  MemberExpression (ident db) (ident collection).

Definition collection_command (db collection : Ident) : Value :=
  Obj [("type", Str "query"); ("db", Str (fst db));
       ("collection", Str (fst collection))].

(** [{ type: "value", property: "length", source }] *)
Definition length_command (source : Value) : Value :=
  Obj [("type", Str "value"); ("property", Str "length"); ("source", source)].

(** A property [key: q.property] of the object a map returns, with the
    position of the reference to the parameter. *)
Definition Field : Type := (Ident * nat * Ident)%type.

Definition projected (q : Ident) (f : Field) : Node :=
  ObjectProperty (ident (fst (fst f)))
    (MemberExpression (Identifier (fst q) (snd (fst f))) (ident (snd f))).

(** [q => ({ key: q.property, ... })] *)
Definition projection (q : Ident) (fields : list Field) : Node :=
  ArrowFunctionExpression [ident q] (ObjectExpression (List.map (projected q) fields)).

Definition field_pair (f : Field) : Value :=
  Arr [Str (fst (fst (fst f))); Str (fst (snd f))].

(** [db.collection.filter(p => body).map(q => ({ ... })).slice(from, to)] *)
Definition filter_map_slice (db collection p : Ident) (body : Node) (q : Ident)
  (fields : list Field) (from to : Z) : Node :=
  method_call
    (method_call
       (method_call (root_reference db collection) ("filter", 0)
          [ArrowFunctionExpression [ident p] body])
       ("map", 0) [projection q fields])
    ("slice", 0) [NumericLiteral from; NumericLiteral to].

(** [root.todos.slice(0, 10).filter(t => t.done)] *)
Definition slice_then_filter : Node :=
  method_call
    (method_call (root_reference ("root", 0) ("todos", 5)) ("slice", 11)
       [NumericLiteral 0; NumericLiteral 10])
    ("filter", 24)
    [ArrowFunctionExpression [Identifier "t" 31]
       (MemberExpression (Identifier "t" 36) (Identifier "done" 38))].

(** The follows of each definition of the registry. *)
Definition follows_table : list (string * list string) :=
  List.map (fun d => (ReadAnalyzer.id d, ReadAnalyzer.follows d))
    ReadAnalyzer.nodeDefinitions.

(** A configuration with the root identifier [root], one with nothing set,
    and the initial state. *)
Definition root_config : ReadAnalyzer.Config :=
  {| ReadAnalyzer.identifiers := Some ["root"];
     ReadAnalyzer.clientPackageName := None;
     ReadAnalyzer.serverPackageName := None |}.

Definition empty_config : ReadAnalyzer.Config :=
  {| ReadAnalyzer.identifiers := None;
     ReadAnalyzer.clientPackageName := None;
     ReadAnalyzer.serverPackageName := None |}.

Definition empty_state : ReadAnalyzer.State :=
  {| ReadAnalyzer.rootDeclarations := None |}.

(** One step of the chain analyzer, the analysis of the inner object given. *)
Definition transition (defs : list ReadAnalyzer.NodeDefinition)
  (state : ReadAnalyzer.State) (config : ReadAnalyzer.Config)
  (allowed : list string) (path : Node)
  (predecessor : Completion (option (string * Value)))
  : Completion (option (string * Value)) :=
  found <- ReadAnalyzer.candidate defs allowed path state config ;;
  match found with
  | None => Return None
  | Some d =>
      if String.eqb (ReadAnalyzer.type d) "predicate" then
        a <- ReadAnalyzer.extract d path state config ;;
        command <- ReadAnalyzer.builder d [a] ;;
        Return (Some (ReadAnalyzer.id d, command))
      else
        resolved <- predecessor ;;
        match resolved with
        | None => Return None
        | Some (previous, source) =>
            if ReadAnalyzer.mem previous (ReadAnalyzer.follows d) then
              a <- ReadAnalyzer.extract d path state config ;;
              command <- ReadAnalyzer.builder d [source; a] ;;
              Return (Some (ReadAnalyzer.id d, command))
            else Return None
        end
  end.

(** The events of a run that validate the configuration. *)
Definition is_validate (e : Plugin.Event) : bool :=
  match e with Plugin.Validate _ => true | _ => false end.

(** A configuration with root identifiers, or with a client or a server
    package name. *)
Definition valid (config : ReadAnalyzer.Config) : bool :=
  Plugin.set_list (ReadAnalyzer.identifiers config)
  || Plugin.set_string (ReadAnalyzer.clientPackageName config)
  || Plugin.set_string (ReadAnalyzer.serverPackageName config).

(** Analyzers that recognize nothing. *)
Definition no_import (path : Node) (state : ReadAnalyzer.State)
  (config : ReadAnalyzer.Config) : Completion (option Value * ReadAnalyzer.State) :=
  Return (None, state).

Definition no_assignment (path : Node) (state : ReadAnalyzer.State)
  (config : ReadAnalyzer.Config) : Completion (option Value) :=
  Return None.

End Inputs.

Import Inputs.

(* ================================================================== *)
(** ** The expected values of the test fixtures, and more statements *)

Module Fixtures.

(** test/fixtures/sort/expected.js *)
Definition sort_expected : Value :=
  Obj [("type", Str "query"); ("operation", Str "sort");
       ("fields", Arr [Obj [("field", Str "assignee"); ("ascending", Boolean true)]]);
       ("source",
         Obj [("type", Str "query");
              ("module", Str "mongodb://localhost:27017/isotropy-test-db");
              ("identifier", Str "myDb"); ("collection", Str "todos")])].

(** test/fixtures/select/expected.js *)
Definition select_expected : Value :=
  Obj [("type", Str "query"); ("method", Str "filter");
       ("predicate",
         Obj [("type", Str "binaryFieldExpression"); ("operator", Str "===");
              ("field", Str "assignee");
              ("comparandNode", Obj [("type", Str "Identifier"); ("name", Str "who")])]);
       ("source",
         Obj [("type", Str "query"); ("module", Str "todosDbModule");
              ("identifier", Str "myDb"); ("collection", Str "todos")])].

End Fixtures.

Module More.

(** The keys of an object, in order. *)
Definition keys (o : Value) : list string :=
  List.map fst (DbStatements.own o).

(** An object whose keys are pairwise distinct, as every object is. *)
Definition distinct_keys (o : Value) : Prop := NoDup (keys o).

(** The reference [name.property] at the position [start]. *)
Definition reference (name : string) (start : nat) (property : Node) : Node :=
  MemberExpression (Identifier name start) property.

(** A configuration that sets no root identifiers. *)
Definition without_identifiers (config : ReadAnalyzer.Config) : Prop :=
  ReadAnalyzer.identifiers config = None.

End More.

Import More.

Module UpdateForms.

(** An object expression that starts with the spread of the identifier
    [name]: [{ ...name, (anything) }]. *)
Definition spreads (name : string) (object : Node) : Prop :=
  exists start rest,
    object = ObjectExpression (SpreadProperty (Identifier name start) :: rest).

Definition names (name : string) (node : Node) : Prop :=
  exists start, node = Identifier name start.

(** [test ? { ...name, ... } : name] or [test ? name : { ...name, ... }] *)
Definition update_form (name : string) (body : Node) : Prop :=
  exists test consequent alternate,
    body = ConditionalExpression test consequent alternate
    /\ ((spreads name consequent /\ names name alternate)
        \/ (names name consequent /\ spreads name alternate)).

Definition spreadsb (name : string) (object : Node) : bool :=
  match object with
  | ObjectExpression (SpreadProperty (Identifier n _) :: _) => String.eqb n name
  | _ => false
  end.

Definition namesb (name : string) (node : Node) : bool :=
  match node with
  | Identifier n _ => String.eqb n name
  | _ => false
  end.

(** The identifier of a parameter, as the build function makes it. *)
Definition identifier_of (name : string) : Value :=
  Obj [("type", Str "Identifier"); ("name", Str name)].

End UpdateForms.

Import UpdateForms.

Module Visits.

Section Visits.

Variable analyzeImportDeclaration :
  Node -> ReadAnalyzer.State -> ReadAnalyzer.Config
  -> Completion (option Value * ReadAnalyzer.State).
Variable analyzeAssignmentExpression :
  Node -> ReadAnalyzer.State -> ReadAnalyzer.Config -> Completion (option Value).

(** The four handlers of the visitor: the name of the handler, the kind of
    node it is called on, and the analyzer it hands to transformPath. *)
Inductive handler :
  string -> Node
  -> (Node -> ReadAnalyzer.State -> ReadAnalyzer.Config
      -> Completion (option Value * ReadAnalyzer.State))
  -> Prop :=
| on_import (source : string) :
    handler "ImportDeclaration" (ImportDeclaration source) analyzeImportDeclaration
| on_assignment (operator : string) (lhs rhs : Node) :
    handler "AssignmentExpression" (AssignmentExpression operator lhs rhs)
      (Plugin.keep_state analyzeAssignmentExpression)
| on_member (object property : Node) :
    handler "MemberExpression" (MemberExpression object property)
      (Plugin.keep_state ReadAnalyzer.analyzeMemberExpression)
| on_call (callee : Node) (arguments : list Node) :
    handler "CallExpression" (CallExpression callee arguments)
      (Plugin.keep_state ReadAnalyzer.analyzeCallExpression).

(** An analysis that is not acted on: none, or a falsy value. *)
Definition falsy (analysis : option Value) : Prop :=
  match analysis with
  | Some value => truthy value = false
  | None => True
  end.

(** [visits config state events outcome]: from [state], [events] is a
    sequence of visits that ends in [outcome].  A visit is the analysis of a
    node by the analyzer of its handler, in the state the visits before it
    left.  When the analyzer throws, nothing follows and the error is the
    outcome; when the analysis is falsy, the next visit follows; when it is
    truthy, the skip of the node and its transformation with this very
    analysis follow, and then the next visit. *)
Inductive visits (config : ReadAnalyzer.Config)
  : ReadAnalyzer.State -> list Plugin.Event -> Completion ReadAnalyzer.State -> Prop :=
| visits_none (state : ReadAnalyzer.State) :
    visits config state [] (Return state)
| visits_thrown (visitor : string) (path : Node) analyze
    (state : ReadAnalyzer.State) (e : Error) :
    handler visitor path analyze ->
    analyze path state config = Throw e ->
    visits config state [Plugin.Analyze visitor path] (Throw e)
| visits_analyzed (visitor : string) (path : Node) analyze
    (state state' : ReadAnalyzer.State) (analysis : option Value)
    (rest : list Plugin.Event) (outcome : Completion ReadAnalyzer.State) :
    handler visitor path analyze ->
    analyze path state config = Return (analysis, state') ->
    falsy analysis ->
    visits config state' rest outcome ->
    visits config state (Plugin.Analyze visitor path :: rest) outcome
| visits_transformed (visitor : string) (path : Node) analyze
    (state state' : ReadAnalyzer.State) (analysis : Value)
    (rest : list Plugin.Event) (outcome : Completion ReadAnalyzer.State) :
    handler visitor path analyze ->
    analyze path state config = Return (Some analysis, state') ->
    truthy analysis = true ->
    visits config state' rest outcome ->
    visits config state
      (Plugin.Analyze visitor path :: Plugin.PathSkip path
         :: Plugin.Transform visitor path analysis :: rest)
      outcome.

End Visits.

(** The ids of the registry. *)
Definition registered : list string :=
  List.map ReadAnalyzer.id ReadAnalyzer.nodeDefinitions.

End Visits.

Import Visits.

(* ================================================================== *)
(** * Theorems *)

(** ** The command builders *)

(** C10.  A node built by createCollection is tagged "query", the tag of the
    nodes that filter, map, slice and sort build; it has the db and the
    collection of its arguments and neither a source nor a method, which the
    continuation nodes all have: inside a pipeline only the absence of these
    fields tells the root from a continuation, not the tag. *)
Theorem createCollection_tagged_query :
  (forall args : Value,
      match DbStatements.createCollection args with
      | Return node =>
          get "type" node = Str "query"
          /\ has "db" node = true /\ get "db" node = get "db" args
          /\ has "collection" node = true
          /\ get "collection" node = get "collection" args
          /\ has "source" node = false /\ has "method" node = false
      | Throw _ => args = Undefined \/ args = Null
      end)
  /\ (forall command x : Value,
         continuation (DbStatements.filter command x)
         /\ continuation (DbStatements.map command x)
         /\ continuation (DbStatements.sort command x)
         /\ match DbStatements.slice command x with
            | Return node => continuation node
            | Throw _ => x = Undefined \/ x = Null
            end).
Proof.
  split.
  - intros args. unfold DbStatements.createCollection.
    destruct args; cbn; auto; repeat split; reflexivity.
  - intros command x. unfold continuation. repeat split; try reflexivity.
    unfold DbStatements.slice. destruct x; cbn; auto; repeat split; reflexivity.
Qed.

(** ** The ternary idiom of the sort schema *)

(** Nothing in scope of the callback of [map] is called [val]. *)
Lemma val_unbound (arg lhs rhs operator : Value) :
  resolve
    ([("lhs", lhs); ("rhs", rhs); ("operator", operator);
      ("paramOrder", Opaque "paramOrder");
      ("legitOperators",
        Arr [Str ">"; Str ">="; Str "<"; Str "<="; Str "=="; Str "==="]);
      ("operatorVal", Opaque "operatorVal"); ("stdVal", Opaque "stdVal")]
     ++ List.map (fun n => (n, get n arg)) SortSchema.parameters1
     ++ SortSchema.module_scope)%list "val"
  = Throw (ReferenceError "val").
Proof. reflexivity. Qed.

(** On any object of captures whose four compared properties are equal,
    the call throws at the first row of the matrix. *)
Lemma getSortExpression1_same_fields (fields : list (string * Value)) :
  let arg := Obj fields in
  strict_equals (get "lhsProp1" arg) (get "rhsProp1" arg)
  && strict_equals (get "lhsProp1" arg) (get "lhsProp2" arg)
  && strict_equals (get "lhsProp1" arg) (get "rhsProp2" arg) = true ->
  SortSchema.getSortExpression1 arg = Throw (ReferenceError "val").
Proof.
  intros arg H. unfold SortSchema.getSortExpression1.
  replace (member arg "param1") with (Return (get "param1" arg)) by reflexivity.
  cbv beta iota delta [bind]. rewrite H.
  cbv zeta. cbn [mapM]. rewrite !val_unbound. reflexivity.
Qed.

(** C1.  When the four compared properties are equal, getSortExpression1
    does not get to the sum: the callback that builds the matrix reads the
    name [val], which nothing declares, and the call throws a ReferenceError,
    whatever the operators, the literals and the order of the parameters.  The
    normalization the specification words returns a descriptor or a Skip on
    the same captures. *)
Theorem getSortExpression1_reads_unbound_val :
  forall (param1 param2 prop lhs1 operator1 rhs1 : string) (val1 : Z)
         (lhs2 operator2 rhs2 : string) (val2 val3 : Z),
    SortSchema.getSortExpression1
      (ternary_captures param1 param2 prop lhs1 operator1 rhs1 val1
                        lhs2 operator2 rhs2 val2 val3)
    = Throw (ReferenceError "val")
    /\ (specified_total param1 param2 lhs1 operator1 rhs1 val1
                        lhs2 operator2 rhs2 val2 val3 = Some 2%Z ->
        specified_getSortExpression1 param1 param2 prop lhs1 operator1 rhs1 val1
                                     lhs2 operator2 rhs2 val2 val3
        = Plain (Obj [("field", Str prop); ("ascending", Boolean true)])).
Proof.
  intros. split.
  - apply getSortExpression1_same_fields.
    cbn [get lookup String.eqb Ascii.eqb Bool.eqb ternary_captures strict_equals].
    rewrite !String.eqb_refl. reflexivity.
  - intros H. unfold specified_getSortExpression1. rewrite H. reflexivity.
Qed.

(** The comparator [(a, b) => a.total > b.total ? 2 : a.total < b.total ? -1 : 0]:
    the specified total is 2, ascending on total; the code throws. *)
Lemma getSortExpression1_reads_unbound_val_witness :
  specified_total "a" "b" "a" ">" "b" 2 "a" "<" "b" (-1) 0 = Some 2%Z
  /\ SortSchema.getSortExpression1
       (ternary_captures "a" "b" "total" "a" ">" "b" 2 "a" "<" "b" (-1) 0)
     = Throw (ReferenceError "val")
  /\ specified_getSortExpression1 "a" "b" "total" "a" ">" "b" 2 "a" "<" "b" (-1) 0
     = Plain (Obj [("field", Str "total"); ("ascending", Boolean true)]).
Proof.
  split; [reflexivity |].
  split.
  - apply (getSortExpression1_reads_unbound_val
             "a" "b" "total" "a" ">" "b" 2 "a" "<" "b" (-1) 0).
  - apply (getSortExpression1_reads_unbound_val
             "a" "b" "total" "a" ">" "b" 2 "a" "<" "b" (-1) 0).
    reflexivity.
Defined.

(** ** The subtraction idiom of the sort schema *)

(** The schema of compareFn2 matches every subtraction comparator, captures
    the two formals one per slot of [params], and hands the build function
    the captures of the body. *)
Lemma compareFn2_subtraction (p1 p2 : Ident) (negation : option string)
  (lo lp ro rp : Ident) :
  SortSchema.compareFn2 (node_of (subtraction_comparator p1 p2 negation lo lp ro rp))
  = SortSchema.getSortExpression2 (subtraction_captures p1 p2 negation lo lp ro rp).
Proof. destruct negation; reflexivity. Qed.

Lemma compareFn2_decides (p1 p2 : Ident) (negation : option string)
  (lo lp ro rp : Ident) :
  SortSchema.compareFn2 (node_of (subtraction_comparator p1 p2 negation lo lp ro rp))
  = if (String.eqb (fst lo) (fst p1) || String.eqb (fst ro) (fst p1))
       && (String.eqb (fst lo) (fst p2) || String.eqb (fst ro) (fst p2))
    then
      if String.eqb (fst lp) (fst rp)
      then Return (Plain (Obj [("field", Str (fst lp));
                               ("ascending",
                                 Boolean (if negated negation
                                          then String.eqb (fst p1) (fst ro)
                                          else String.eqb (fst p1) (fst lo)))]))
      else Return (Skip ("The sort expression must reference the same property "
                         ++ "on compared objects."))
    else Return (Skip ("The sort expression must reference parameters "
                       ++ fst p1 ++ " and " ++ fst p2 ++ ".")).
Proof.
  rewrite compareFn2_subtraction.
  unfold SortSchema.getSortExpression2, subtraction_captures, negated.
  destruct negation as [op |]; cbn -[String.append];
    rewrite ?orb_false_r, ?andb_true_r;
    repeat match goal with
           | |- context [String.eqb ?a ?b] => destruct (String.eqb a b)
           end; reflexivity.
Qed.

Lemma referenced_decides (p1 p2 lo ro : string) :
  (String.eqb lo p1 || String.eqb ro p1) && (String.eqb lo p2 || String.eqb ro p2) = true
  <-> referenced p1 p2 lo ro.
Proof.
  unfold referenced.
  rewrite andb_true_iff, !orb_true_iff, !String.eqb_eq. reflexivity.
Qed.

(** C3.  On every subtraction comparator, un-negated or under a unary
    operator, compareFn2 returns a Skip unless each formal is the object of
    one of the two operands and both operands read the same property; when
    that holds it returns the descriptor of that property, ascending exactly
    when the first formal is the object of the left operand (un-negated) or
    of the right operand (negated by a minus).  For distinct formals the
    condition says that the two objects are the two formals.  The outcome is
    the one of getSortExpression2 on the captures of the comparator.  So
    [(x, y) => x.a - y.a] is ascending and [(x, y) => -(x.a - y.a)] is not. *)
Theorem compareFn2_subtraction_idiom :
  (forall (p1 p2 : Ident) (negation : option string) (lo lp ro rp : Ident),
      let outcome :=
        SortSchema.compareFn2
          (node_of (subtraction_comparator p1 p2 negation lo lp ro rp)) in
      outcome
      = SortSchema.getSortExpression2
          (subtraction_captures p1 p2 negation lo lp ro rp)
      /\ (referenced (fst p1) (fst p2) (fst lo) (fst ro) -> fst lp = fst rp ->
       outcome
       = Return (Plain (Obj [("field", Str (fst lp));
                             ("ascending",
                               Boolean (if negated negation
                                        then String.eqb (fst p1) (fst ro)
                                        else String.eqb (fst p1) (fst lo)))])))
      /\ (~ (referenced (fst p1) (fst p2) (fst lo) (fst ro) /\ fst lp = fst rp) ->
          exists reason, outcome = Return (Skip reason))
      /\ (fst p1 <> fst p2 ->
          (referenced (fst p1) (fst p2) (fst lo) (fst ro)
           <-> exactly_the_formals (fst p1) (fst p2) (fst lo) (fst ro))))
  /\ SortSchema.compareFn2
       (node_of (subtraction_comparator ("x", 1) ("y", 4) None
                   ("x", 10) ("a", 12) ("y", 16) ("a", 18)))
     = Return (Plain (Obj [("field", Str "a"); ("ascending", Boolean true)]))
  /\ SortSchema.compareFn2
       (node_of (subtraction_comparator ("x", 1) ("y", 4) (Some "-")
                   ("x", 12) ("a", 14) ("y", 18) ("a", 20)))
     = Return (Plain (Obj [("field", Str "a"); ("ascending", Boolean false)])).
Proof.
  split; [| split; reflexivity].
  intros p1 p2 negation lo lp ro rp outcome. subst outcome.
  split; [apply compareFn2_subtraction |].
  rewrite compareFn2_decides.
  split; [| split].
  - intros Href Hprop.
    apply referenced_decides in Href. rewrite Href.
    apply String.eqb_eq in Hprop. rewrite Hprop. reflexivity.
  - intros Hnot.
    destruct ((String.eqb (fst lo) (fst p1) || String.eqb (fst ro) (fst p1))
              && (String.eqb (fst lo) (fst p2) || String.eqb (fst ro) (fst p2)))
      eqn:Href; [| eexists; reflexivity].
    destruct (String.eqb_spec (fst lp) (fst rp)) as [Hprop | Hprop];
      [| eexists; reflexivity].
    exfalso. apply Hnot. split; [apply referenced_decides; exact Href | exact Hprop].
  - unfold referenced, exactly_the_formals. intros Hdistinct. split.
    + intros [[H1 | H1] [H2 | H2]]; auto; congruence.
    + intros [[H1 H2] | [H1 H2]]; auto.
Qed.

(** [(x, y) => x.a - y.a] is ascending on a; [(x, y) => x.a - z.a] is
    skipped. *)
Lemma compareFn2_subtraction_idiom_witness :
  (referenced "x" "y" "x" "y" /\ "a" = "a"
   /\ SortSchema.compareFn2
        (node_of (subtraction_comparator ("x", 1) ("y", 4) None
                    ("x", 10) ("a", 12) ("y", 16) ("a", 18)))
      = Return (Plain (Obj [("field", Str "a"); ("ascending", Boolean true)])))
  /\ (~ (referenced "x" "y" "x" "z" /\ "a" = "a")
      /\ exists reason,
           SortSchema.compareFn2
             (node_of (subtraction_comparator ("x", 1) ("y", 4) None
                         ("x", 10) ("a", 12) ("z", 16) ("a", 18)))
           = Return (Skip reason)).
Proof.
  assert (Href : referenced "x" "y" "x" "y") by (split; [left | right]; reflexivity).
  assert (Hnot : ~ (referenced "x" "y" "x" "z" /\ "a" = "a"))
    by (intros [[_ [H | H]] _]; discriminate).
  split.
  - split; [exact Href |]. split; [reflexivity |].
    exact (proj1 (proj2 (proj1 compareFn2_subtraction_idiom
                           ("x", 1) ("y", 4) None
                           ("x", 10) ("a", 12) ("y", 16) ("a", 18)))
             Href eq_refl).
  - split; [exact Hnot |].
    exact (proj1 (proj2 (proj2 (proj1 compareFn2_subtraction_idiom
                                  ("x", 1) ("y", 4) None
                                  ("x", 10) ("a", 12) ("z", 16) ("a", 18))))
             Hnot).
Defined.

(** ** The matcher *)

Lemma Schema_induction (P : Schema -> Prop)
  (Hliteral : forall v, P (literal v))
  (Hobj : forall fields, Forall (fun kv => P (snd kv)) fields -> P (obj fields))
  (Harray : forall items, Forall P items -> P (array items))
  (Hany : forall alternatives, Forall P alternatives -> P (any alternatives))
  (Hcapture : forall name, P (capture name))
  (Hexists : forall test, P (exists_ test))
  (Hrepeating : forall item, P item -> P (repeatingItem item)) :
  forall s, P s.
Proof.
  fix IH 1. intros [v | fields | items | alternatives | name | test | item].
  - apply Hliteral.
  - apply Hobj. induction fields as [| [k child] rest IHrest]; constructor.
    + apply IH.
    + exact IHrest.
  - apply Harray. induction items as [| it rest IHrest]; constructor.
    + apply IH.
    + exact IHrest.
  - apply Hany. induction alternatives as [| a rest IHrest]; constructor.
    + apply IH.
    + exact IHrest.
  - apply Hcapture.
  - apply Hexists.
  - apply Hrepeating. apply IH.
Qed.

(** Every matching operation returns exactly one outcome, a Match or a Skip. *)
Lemma run_outcome (s : Schema) : forall input, outcome (run s input).
Proof.
  induction s as [v | fields IH | items IH | alternatives IH | name | test | item IH]
    using Schema_induction; intros input.
  - cbn. destruct (strict_equals input v); exact I.
  - cbn [run].
    match goal with
    | |- outcome (?each fields []) =>
        enough (H : forall acc, outcome (each fields acc)) by apply H
    end.
    induction IH as [| [k child] rest Hchild _ IHrest]; intros acc.
    + exact I.
    + cbn [snd] in Hchild. specialize (Hchild (get k input)).
      destruct (run child (get k input)); try contradiction; try exact I.
      destruct (contribute child k value acc); [apply IHrest | exact I].
  - cbn [run]. destruct input as [| | | | | | elements | |]; try exact I.
    match goal with
    | |- outcome (?each items elements []) =>
        enough (H : forall xs acc, outcome (each items xs acc)) by apply H
    end.
    induction IH as [| it rest Hit _ IHrest]; intros xs acc.
    + destruct xs; exact I.
    + destruct it as [v | fs | its | alts | nm | tst | item].
      1-6: destruct xs as [| x xs']; [exact I |];
           specialize (Hit x); destruct (run _ x);
           try contradiction; try exact I; apply IHrest.
      match goal with
      | |- outcome (?repeat xs []) =>
          enough (H : forall ys seen, outcome (repeat ys seen)) by apply H
      end.
      induction ys as [| y ys' IHys]; intros seen.
      * exact I.
      * specialize (Hit y). cbn [run] in Hit.
        destruct (run item y); try contradiction; try exact I. apply IHys.
  - cbn [run]. induction IH as [| a rest Ha _ IHrest].
    + exact I.
    + specialize (Ha input). destruct (run a input); try contradiction; auto.
  - destruct name; exact I.
  - cbn. destruct (test input); exact I.
  - cbn [run]. apply IH.
Qed.










(** ** The update schema *)

(** C2.  The build function of the update schema never returns a command.
    When the assigned collection is the collection the map is called on and
    the body of the arrow function matches the standard or the inverse form,
    it returns a function, and a call of that function throws on the name
    Skip; the builder [update] is imported and not called.  So for
    [root.todos = root.todos.map(t => t.id === 10 ? {...t, active: true} : t)]
    and for its inverse form no Modification node is built. *)
Theorem update_build_returns_a_function :
  (forall result : Result,
      match UpdateSchema.build result with
      | Return (Plain _) => False
      | Return (Closure call) => call = Throw (ReferenceError "Skip")
      | _ => True
      end)
  /\ (forall (left_ object : Value) (param body : Node),
         equals left_ object = true ->
         isMatch (run (UpdateSchema.getArrowFunctionBody
                         (Obj [("type", Str "Identifier");
                               ("name", get "name" (node_of param))]))
                      (node_of body)) = true ->
         UpdateSchema.build (UpdateSchema.matched left_ object param body)
         = Return (Closure (Throw (ReferenceError "Skip"))))
  /\ UpdateSchema.build
       (UpdateSchema.matched todos_command todos_command (Identifier "t" 30)
          standard_update_body)
     = Return (Closure (Throw (ReferenceError "Skip")))
  /\ UpdateSchema.build
       (UpdateSchema.matched todos_command todos_command (Identifier "t" 30)
          inverse_update_body)
     = Return (Closure (Throw (ReferenceError "Skip"))).
Proof.
  split; [| split; [| split; reflexivity]].
  - intros result. unfold UpdateSchema.build.
    destruct (read_value result) as [value |]; [| exact I]. cbn [bind].
    destruct (member value "left"); [| exact I]. cbn [bind].
    destruct (member value "object"); [| exact I]. cbn [bind].
    destruct (equals a a0).
    + destruct (index (get "arguments" value) 0); [| exact I]. cbn [bind].
      destruct (member a1 "params"); [| exact I]. cbn [bind].
      destruct (member a1 "body"); [| exact I]. cbn [bind].
      destruct (index a2 0); [| exact I]. cbn [bind].
      destruct (member a4 "name"); [| exact I]. cbn [bind].
      match goal with
      | |- context [run ?s ?v] =>
          pose proof (run_outcome s v) as Hout; destruct (run s v)
      end; try contradiction; cbn [isMatch]; [reflexivity | exact I].
    + unfold UpdateSchema.new_Skip. cbn. exact I.
  - intros left_ object param body Hsame Hmatch.
    unfold UpdateSchema.build, UpdateSchema.matched.
    cbn [read_value value_of member get lookup String.eqb Ascii.eqb Bool.eqb bind
         index nth].
    rewrite Hsame.
    replace (member (node_of param) "name")
      with (Return (get "name" (node_of param))) by (destruct param; reflexivity).
    cbn [bind]. rewrite Hmatch. reflexivity.
Qed.

(** The standard form of the specification's scenario. *)
Lemma update_build_returns_a_function_witness :
  equals todos_command todos_command = true
  /\ UpdateSchema.build
       (UpdateSchema.matched todos_command todos_command (Identifier "t" 30)
          standard_update_body)
     = Return (Closure (Throw (ReferenceError "Skip"))).
Proof.
  split; [reflexivity |].
  apply (proj1 (proj2 update_build_returns_a_function)
           todos_command todos_command (Identifier "t" 30) standard_update_body);
    reflexivity.
Defined.

(** C6.  When the collection on the left is not the collection the map is
    called on, the build function evaluates [new Skip(...)]; update.js does
    not import Skip, so the evaluation throws a ReferenceError instead of
    returning the Skip. *)
Theorem update_build_other_collection_throws :
  forall (left_ object : Value) (param body : Node),
    equals left_ object = false ->
    UpdateSchema.build (UpdateSchema.matched left_ object param body)
    = Throw (ReferenceError "Skip").
Proof.
  intros left_ object param body Hdiffer.
  unfold UpdateSchema.build, UpdateSchema.matched.
  cbn [read_value value_of member get lookup String.eqb Ascii.eqb Bool.eqb bind].
  rewrite Hdiffer. reflexivity.
Qed.

(** [root.todos = root.users.map(t => ...)] *)
Lemma update_build_other_collection_throws_witness :
  equals todos_command users_command = false
  /\ UpdateSchema.build
       (UpdateSchema.matched todos_command users_command (Identifier "t" 30)
          standard_update_body)
     = Throw (ReferenceError "Skip").
Proof.
  split; [reflexivity |].
  apply (update_build_other_collection_throws
           todos_command users_command (Identifier "t" 30) standard_update_body).
  reflexivity.
Defined.

(** ** The relational sort extractor *)

Import ReadAnalyzer.

Lemma includes_relational (operator : string) :
  includes [Str ">"; Str ">="; Str "<"; Str "<="] (Str operator) = relational operator.
Proof.
  unfold relational, mem.
  cbn [includes existsb same_value_zero strict_equals].
  rewrite !(String.eqb_sym operator). reflexivity.
Qed.

(** The checks of getSortArgs on a relational comparator, in their order. *)
Lemma getSortArgs_decides (p1 p2 : Ident) (operator : string) (lo lp ro rp : Ident)
  (rest : list Node) (state : State) (config : Config) :
  getSortArgs (relational_comparator p1 p2 operator lo lp ro rp :: rest) state config
  = if negb (relational operator)
    then Throw (Err "The sort function should use the greater than or less than operator.")
    else if negb (String.eqb (fst p1) (fst lo) || String.eqb (fst p2) (fst lo))
    then Throw (Err "Expected a property access on a parameter.")
    else if negb (String.eqb (fst lp) (fst rp))
    then Throw (Err "The sort expression should use the same field.")
    else if negb ((String.eqb (fst lo) (fst p1) || String.eqb (fst ro) (fst p1))
                  && (String.eqb (fst lo) (fst p2) || String.eqb (fst ro) (fst p2)))
    then Throw (Err "The sort expression should reference both parameters in the arrow function.")
    else Return (Arr [sort_descriptor (fst lp)
                        ((String.eqb operator ">" && String.eqb (fst p1) (fst lo))
                         || (String.eqb operator "<" && String.eqb (fst p1) (fst ro)))]).
Proof.
  unfold getSortArgs, relational_comparator, sort_descriptor, ident.
  remember (includes [Str ">"; Str ">="; Str "<"; Str "<="]) as rel eqn:Hrel.
  remember (relational operator) as isrel eqn:Hisrel.
  cbn. subst rel. rewrite includes_relational, <- Hisrel.
  destruct isrel; cbn [negb]; [| reflexivity].
  rewrite !orb_false_r, ?andb_true_r.
  destruct (String.eqb (fst p1) (fst lo) || String.eqb (fst p2) (fst lo));
    cbn [negb]; [| reflexivity].
  destruct (String.eqb (fst lp) (fst rp)); cbn [negb]; [| reflexivity].
  destruct ((String.eqb (fst lo) (fst p1) || String.eqb (fst ro) (fst p1))
            && (String.eqb (fst lo) (fst p2) || String.eqb (fst ro) (fst p2)));
    reflexivity.
Qed.

Lemma exactly_decides (p1 p2 lo ro : string) :
  exactly_the_formals p1 p2 lo ro ->
  (String.eqb p1 lo || String.eqb p2 lo) = true
  /\ (String.eqb lo p1 || String.eqb ro p1) && (String.eqb lo p2 || String.eqb ro p2) = true.
Proof.
  intros [[H1 H2] | [H1 H2]]; subst; rewrite !String.eqb_refl;
    rewrite ?orb_true_r; auto.
Qed.

(** C5.  Whatever its arguments, getSortArgs throws or returns an array of
    one descriptor, never a Skip.  On a comparator
    [(p1, p2) => lo.lp operator ro.rp] with distinct formals it throws when the
    operator is not one of >, >=, <, <=, when the two properties differ, or
    when the objects of the two operands are not the two formals; otherwise
    it returns exactly one descriptor, of the compared property, whose
    ascending flag is true exactly when the operator is > and the first
    formal is the left object, or the operator is < and the first formal is
    the right object. *)
Theorem getSortArgs_relational_comparator :
  (forall (path : list Node) (state : State) (config : Config),
      match getSortArgs path state config with
      | Throw _ => True
      | Return v =>
          exists field ascending,
            v = Arr [Obj [("field", field); ("ascending", Boolean ascending)]]
      end)
  /\ (forall (p1 p2 : Ident) (operator : string) (lo lp ro rp : Ident)
             (rest : list Node) (state : State) (config : Config),
         let result :=
           getSortArgs (relational_comparator p1 p2 operator lo lp ro rp :: rest)
             state config in
         (relational operator = false -> exists message, result = Throw (Err message))
         /\ (fst lp <> fst rp -> exists message, result = Throw (Err message))
         /\ (fst p1 <> fst p2 ->
             ~ exactly_the_formals (fst p1) (fst p2) (fst lo) (fst ro) ->
             exists message, result = Throw (Err message))
         /\ (relational operator = true -> fst lp = fst rp ->
             exactly_the_formals (fst p1) (fst p2) (fst lo) (fst ro) ->
             exists ascending,
               result = Return (Arr [sort_descriptor (fst lp) ascending])
               /\ (ascending = true
                   <-> (operator = ">" /\ fst p1 = fst lo)
                       \/ (operator = "<" /\ fst p1 = fst ro)))).
Proof.
  split.
  { intros path state config. unfold getSortArgs.
    repeat match goal with
           | |- match bind ?c _ with _ => _ end => destruct c; cbn [bind]
           | |- match (if ?b then _ else _) with _ => _ end => destruct b
           | |- match Throw _ with _ => _ end => exact I
           end.
    all: try (eexists; eexists; reflexivity). }
  intros p1 p2 operator lo lp ro rp rest state config result. subst result.
  rewrite getSortArgs_decides.
  split; [| split; [| split]].
  - intros Hrel. rewrite Hrel. eexists. reflexivity.
  - intros Hprop. apply String.eqb_neq in Hprop. rewrite Hprop.
    destruct (negb (relational operator)); [eexists; reflexivity |].
    destruct (negb _); eexists; reflexivity.
  - intros Hdistinct Hnot.
    destruct (negb (relational operator)); [eexists; reflexivity |].
    destruct (negb (String.eqb (fst p1) (fst lo) || String.eqb (fst p2) (fst lo)));
      [eexists; reflexivity |].
    destruct (negb (String.eqb (fst lp) (fst rp))); [eexists; reflexivity |].
    destruct ((String.eqb (fst lo) (fst p1) || String.eqb (fst ro) (fst p1))
              && (String.eqb (fst lo) (fst p2) || String.eqb (fst ro) (fst p2)))
      eqn:Href; [| eexists; reflexivity].
    exfalso. apply Hnot. apply referenced_decides in Href.
    unfold referenced in Href. unfold exactly_the_formals.
    destruct Href as [[H1 | H1] [H2 | H2]]; auto; congruence.
  - intros Hrel Hprop Hexact.
    destruct (exactly_decides _ _ _ _ Hexact) as [Hleft Href].
    apply String.eqb_eq in Hprop.
    rewrite Hrel, Hleft, Hprop, Href. cbn [negb].
    eexists. split; [reflexivity |].
    rewrite orb_true_iff, !andb_true_iff, !String.eqb_eq. reflexivity.
Qed.

(** [(x, y) => x.assignee > y.assignee] is ascending on assignee;
    [(x, y) => x.assignee - y.assignee] is refused. *)
Lemma getSortArgs_relational_comparator_witness :
  (relational ">" = true /\ "assignee" = "assignee"
   /\ exactly_the_formals "x" "y" "x" "y"
   /\ exists ascending,
        getSortArgs
          [relational_comparator ("x", 1) ("y", 4) ">"
             ("x", 10) ("assignee", 12) ("y", 23) ("assignee", 25)]
          empty_state root_config
        = Return (Arr [sort_descriptor "assignee" ascending])
        /\ (ascending = true
            <-> (">" = ">" /\ "x" = "x") \/ (">" = "<" /\ "x" = "y")))
  /\ (relational "-" = false
      /\ exists message,
           getSortArgs
             [relational_comparator ("x", 1) ("y", 4) "-"
                ("x", 10) ("assignee", 12) ("y", 23) ("assignee", 25)]
             empty_state root_config
           = Throw (Err message)).
Proof.
  assert (Hexact : exactly_the_formals "x" "y" "x" "y") by (left; split; reflexivity).
  split.
  - split; [reflexivity |]. split; [reflexivity |]. split; [exact Hexact |].
    exact (proj2 (proj2 (proj2
             (proj2 getSortArgs_relational_comparator ("x", 1) ("y", 4) ">"
                ("x", 10) ("assignee", 12) ("y", 23) ("assignee", 25) []
                empty_state root_config)))
             eq_refl eq_refl Hexact).
  - split; [reflexivity |].
    exact (proj1
             (proj2 getSortArgs_relational_comparator ("x", 1) ("y", 4) "-"
                ("x", 10) ("assignee", 12) ("y", 23) ("assignee", 25) []
                empty_state root_config)
             eq_refl).
Defined.

(** ** The chain analyzer *)

Lemma existsb_find {A : Type} (p : A -> bool) (l : list A) :
  existsb p l = true -> exists x, List.find p l = Some x /\ In x l.
Proof.
  induction l as [| a l IH]; cbn; [discriminate |].
  destruct (p a) eqn:Hp; intros H.
  - exists a. auto.
  - destruct (IH H) as [x [Hx Hin]]. exists x. auto.
Qed.

Lemma getRootArgs_recognized (state : State) (config : Config) (db collection : Ident) :
  isRoot (root_reference db collection) state config = Return true ->
  (identifiers config = None -> initialised state = true) ->
  getRootArgs (root_reference db collection) state config
  = Return (Obj [("db", Str (fst db)); ("collection", Str (fst collection))]).
Proof.
  unfold isRoot, getRootArgs, root_reference, ident, initialised.
  cbn [isMemberExpression isIdentifier field String.eqb Ascii.eqb Bool.eqb andb].
  destruct (identifiers config) as [ids |]; [reflexivity |].
  destruct (rootDeclarations state) as [refs |]; [| discriminate].
  cbn [scalar String.eqb Ascii.eqb Bool.eqb toString].
  intros Hroot Hinit. injection Hroot as Hroot. specialize (Hinit eq_refl).
  destruct refs as [| ref0 refs0]; [discriminate |].
  cbn [get_path field String.eqb Ascii.eqb Bool.eqb bind node_scalar scalar toString].
  destruct (existsb_find _ _ Hroot) as [ref [Hfind Hin]]. rewrite Hfind.
  rewrite forallb_forall in Hinit. specialize (Hinit ref Hin).
  destruct (init_arguments ref) as [[| a rest] |]; try discriminate. reflexivity.
Qed.

Lemma analyze_unfold (defs : list NodeDefinition) (state : State) (config : Config)
  (allowed : list string) (path : Node) :
  analyze defs state config allowed path
  = transition defs state config allowed path
      match inner path with
      | Some object => analyze defs state config (List.map id defs) object
      | None => Return None
      end.
Proof.
  destruct path; try reflexivity.
  destruct path; reflexivity.
Qed.

(** A recognized collection reference resolves to the root operation. *)
Lemma root_resolved (state : State) (config : Config) (db collection : Ident)
  (allowed : list string) :
  isRoot (root_reference db collection) state config = Return true ->
  (identifiers config = None -> initialised state = true) ->
  mem "root" allowed = true ->
  analyze nodeDefinitions state config allowed (root_reference db collection)
  = Return (Some ("root", collection_command db collection)).
Proof.
  intros Hroot Hinit Hallowed.
  pose proof (getRootArgs_recognized state config db collection Hroot Hinit) as Hargs.
  unfold root_reference, ident in *.
  cbn [analyze nodeDefinitions candidate id]. rewrite Hallowed.
  cbn [fits type predicate String.eqb Ascii.eqb Bool.eqb].
  unfold rootAnalyzer_isRoot. rewrite Hroot. cbn [bind].
  cbn [type String.eqb Ascii.eqb Bool.eqb extract args]. unfold rootAnalyzer_getRootArgs.
  rewrite Hargs. reflexivity.
Qed.

Lemma mapM_map_return {A B C : Type} (f : B -> Completion C) (g : A -> B)
  (h : A -> C) (l : list A) :
  (forall x, f (g x) = Return (h x)) ->
  mapM f (List.map g l) = Return (List.map h l).
Proof.
  intros H. induction l as [| x rest IH]; [reflexivity |].
  cbn [List.map mapM]. rewrite H, IH. reflexivity.
Qed.

Lemma getMapArgs_projection (q : Ident) (fields : list Field) (rest : list Node)
  (state : State) (config : Config) :
  getMapArgs (projection q fields :: rest) state config
  = Return (Arr (List.map field_pair fields)).
Proof.
  unfold getMapArgs, projection.
  cbn [at_ nth_error assertUnaryArrowFunction bind get_path field String.eqb
       Ascii.eqb Bool.eqb isObjectExpression negb get_list name_at node_scalar
       scalar ident].
  rewrite (mapM_map_return _ (projected q) (fun _ => tt)).
  - cbn [bind]. rewrite (mapM_map_return _ (projected q) field_pair).
    + reflexivity.
    + intros f. reflexivity.
  - intros f. cbn. rewrite String.eqb_refl. reflexivity.
Qed.

Lemma filter_resolved (state : State) (config : Config)
  (db collection p : Ident) (body : Node) (allowed : list string) :
  isRoot (root_reference db collection) state config = Return true ->
  (identifiers config = None -> initialised state = true) ->
  mem "filter" allowed = true ->
  analyze nodeDefinitions state config allowed
    (method_call (root_reference db collection) ("filter", 0)
       [ArrowFunctionExpression [ident p] body])
  = Return (Some ("filter",
                  DbStatements.filter (collection_command db collection)
                    (node_of body))).
Proof.
  intros Hroot Hinit Hallowed. unfold method_call.
  rewrite analyze_unfold. cbn [inner].
  rewrite (root_resolved state config db collection
             (List.map id nodeDefinitions) Hroot Hinit eq_refl).
  unfold transition, root_reference.
  cbn [candidate nodeDefinitions id]. rewrite Hallowed.
  destruct (mem "root" allowed); cbn; reflexivity.
Qed.

Lemma map_resolved (state : State) (config : Config)
  (db collection p : Ident) (body : Node) (q : Ident) (fields : list Field)
  (allowed : list string) :
  isRoot (root_reference db collection) state config = Return true ->
  (identifiers config = None -> initialised state = true) ->
  mem "map" allowed = true ->
  analyze nodeDefinitions state config allowed
    (method_call
       (method_call (root_reference db collection) ("filter", 0)
          [ArrowFunctionExpression [ident p] body])
       ("map", 0) [projection q fields])
  = Return (Some ("map",
                  DbStatements.map
                    (DbStatements.filter (collection_command db collection)
                       (node_of body))
                    (Arr (List.map field_pair fields)))).
Proof.
  intros Hroot Hinit Hallowed.
  unfold method_call at 1. rewrite analyze_unfold. cbn [inner].
  rewrite (filter_resolved state config db collection p body
             (List.map id nodeDefinitions) Hroot Hinit eq_refl).
  unfold transition, method_call.
  cbn [candidate nodeDefinitions id]. rewrite Hallowed.
  destruct (mem "root" allowed); destruct (mem "filter" allowed);
    cbn -[getMapArgs projection]; rewrite getMapArgs_projection; reflexivity.
Qed.

Lemma mem_not_In (x : string) (xs : list string) :
  ~ In x xs -> mem x xs = false.
Proof.
  unfold mem. induction xs as [| y rest IH]; intros H; [reflexivity |].
  cbn. destruct (String.eqb_spec x y) as [-> | _].
  - exfalso. apply H. left. reflexivity.
  - apply IH. intros Hin. apply H. right. exact Hin.
Qed.

(** The check of the follows: a node that fits an operation whose follows
    do not hold the operation of its inner object gives nothing. *)
Lemma follows_enforced (state : State) (config : Config) (allowed : list string)
  (path object : Node) (d : NodeDefinition) (previous : string) (source : Value) :
  candidate nodeDefinitions allowed path state config = Return (Some d) ->
  type d <> "predicate" ->
  inner path = Some object ->
  analyze nodeDefinitions state config (List.map id nodeDefinitions) object
  = Return (Some (previous, source)) ->
  mem previous (follows d) = false ->
  analyzer path allowed state config = Return None.
Proof.
  intros Hcandidate Hkind Hinner Hprevious Hfollows.
  unfold analyzer, makeAnalyzer. rewrite analyze_unfold, Hinner, Hprevious.
  unfold transition. rewrite Hcandidate. cbn [bind].
  apply String.eqb_neq in Hkind. rewrite Hkind, Hfollows. reflexivity.
Qed.

(** C4.  The registry gives filter the follows root and sort, map the follows
    root, filter, sort and slice, slice the follows root, filter, sort and
    map, sort and length the follows root and filter.  Whenever a node is
    matched by an operation of the registry and the operation its inner
    object resolves to is not in the follows of that operation, the analyzer
    produces no command: so for every call [object.method(...)] of filter,
    map, slice or sort, and for every access [object.length], on an object
    that resolves to an operation outside the follows of the method.  The
    chain filter, map, slice on a recognized collection reference is analyzed
    to one node per operation: the slice node, whose source is the map node,
    whose source is the filter node, whose source is the node of the
    collection. *)
Theorem chain_follows_registry :
  follows_table
  = [("root", []); ("filter", ["root"; "sort"]);
     ("map", ["root"; "filter"; "sort"; "slice"]);
     ("slice", ["root"; "filter"; "sort"; "map"]);
     ("sort", ["root"; "filter"]); ("length", ["root"; "filter"])]
  /\ (forall (state : State) (config : Config) (allowed : list string)
             (path object : Node) (d : NodeDefinition)
             (previous : string) (source : Value),
         candidate nodeDefinitions allowed path state config = Return (Some d) ->
         type d <> "predicate" ->
         inner path = Some object ->
         analyze nodeDefinitions state config (List.map id nodeDefinitions) object
         = Return (Some (previous, source)) ->
         mem previous (follows d) = false ->
         analyzer path allowed state config = Return None)
  /\ (forall (state : State) (config : Config) (object : Node)
             (method : string) (start : nat) (arguments : list Node)
             (fs : list string) (previous : string) (source : Value),
         In method ["filter"; "map"; "slice"; "sort"] ->
         In (method, fs) follows_table ->
         analyze nodeDefinitions state config (List.map id nodeDefinitions) object
         = Return (Some (previous, source)) ->
         ~ In previous fs ->
         analyzeCallExpression (method_call object (method, start) arguments)
           state config
         = Return None)
  /\ (forall (state : State) (config : Config) (object : Node) (start : nat)
             (fs : list string) (previous : string) (source : Value),
         In ("length", fs) follows_table ->
         analyze nodeDefinitions state config (List.map id nodeDefinitions) object
         = Return (Some (previous, source)) ->
         ~ In previous fs ->
         analyzeMemberExpression (MemberExpression object (Identifier "length" start))
           state config
         = Return None)
  /\ (forall (state : State) (config : Config) (db collection p : Ident)
             (body : Node) (q : Ident) (fields : list Field) (from to : Z),
         isRoot (root_reference db collection) state config = Return true ->
         (identifiers config = None -> initialised state = true) ->
         analyzeCallExpression
           (filter_map_slice db collection p body q fields from to) state config
         = Return
             (Some
                (Obj [("type", Str "query"); ("method", Str "slice");
                      ("from", Number from); ("to", Number to);
                      ("source",
                        Obj [("type", Str "query"); ("method", Str "map");
                             ("fields",
                               Arr (List.map
                                      (fun f : Field =>
                                         Arr [Str (fst (fst (fst f)));
                                              Str (fst (snd f))])
                                      fields));
                             ("source",
                               Obj [("type", Str "query"); ("method", Str "filter");
                                    ("predicate", node_of body);
                                    ("source",
                                      Obj [("type", Str "query");
                                           ("db", Str (fst db));
                                           ("collection",
                                             Str (fst collection))])])])]))).
Proof.
  split; [reflexivity |]. split; [| split; [| split]].
  - intros state config allowed path object d previous source.
    apply follows_enforced.
  - intros state config object method start arguments fs previous source
      Hmethod Htable Hprevious Hnot.
    apply mem_not_In in Hnot.
    unfold analyzeCallExpression.
    unfold follows_table in Htable. cbn in Htable.
    cbn [In] in Hmethod.
    destruct Hmethod as [<- | [<- | [<- | [<- | []]]]];
      repeat (destruct Htable as [Htable | Htable];
              [first [discriminate Htable | injection Htable as <-] |]);
      try contradiction;
      (eapply (follows_enforced state config _ _ object _ previous source);
       [reflexivity | cbn; discriminate | reflexivity | exact Hprevious | exact Hnot]).
  - intros state config object start fs previous source Htable Hprevious Hnot.
    apply mem_not_In in Hnot.
    unfold analyzeMemberExpression.
    unfold follows_table in Htable. cbn in Htable.
    repeat (destruct Htable as [Htable | Htable];
            [first [discriminate Htable | injection Htable as <-] |]);
      try contradiction.
    destruct object;
      try (cbn in Hprevious; discriminate Hprevious);
      (eapply (follows_enforced state config _ _ _ _ previous source);
       [reflexivity | cbn; discriminate | reflexivity | exact Hprevious | exact Hnot]).
  - intros state config db collection p body q fields from to Hroot Hinit.
    unfold analyzeCallExpression, analyzer, makeAnalyzer, filter_map_slice.
    unfold method_call at 1. rewrite analyze_unfold. cbn [inner].
    rewrite (map_resolved state config db collection p body q fields
               (List.map id nodeDefinitions) Hroot Hinit eq_refl).
    unfold transition, method_call. cbn -[projection]. reflexivity.
Qed.

(** [root.todos.slice(0, 10).filter(t => t.done)] produces nothing, and
    [root.todos.filter(t => t.done).map(t => ({ title: t.name })).slice(0, 10)]
    is analyzed to the three nodes over the node of the collection. *)
Lemma chain_follows_registry_witness :
  analyzeCallExpression slice_then_filter empty_state root_config = Return None
  /\ analyzeCallExpression
       (filter_map_slice ("root", 0) ("todos", 5) ("t", 20)
          (MemberExpression (Identifier "t" 25) (Identifier "done" 27))
          ("t", 40) [(("title", 46), 53, ("name", 55))] 0 10)
       empty_state root_config
     = Return
         (Some
            (Obj [("type", Str "query"); ("method", Str "slice");
                  ("from", Number 0%Z); ("to", Number 10%Z);
                  ("source",
                    Obj [("type", Str "query"); ("method", Str "map");
                         ("fields", Arr [Arr [Str "title"; Str "name"]]);
                         ("source",
                           Obj [("type", Str "query"); ("method", Str "filter");
                                ("predicate",
                                  Obj [("type", Str "MemberExpression");
                                       ("object",
                                         Obj [("type", Str "Identifier");
                                              ("name", Str "t");
                                              ("start", Number 25%Z)]);
                                       ("property",
                                         Obj [("type", Str "Identifier");
                                              ("name", Str "done");
                                              ("start", Number 27%Z)])]);
                                ("source",
                                  Obj [("type", Str "query"); ("db", Str "root");
                                       ("collection", Str "todos")])])])])).
Proof.
  split.
  - apply (proj1 (proj2 (proj2 chain_follows_registry)) empty_state root_config
             (method_call (root_reference ("root", 0) ("todos", 5)) ("slice", 11)
                [NumericLiteral 0; NumericLiteral 10])
             "filter" 24
             [ArrowFunctionExpression [Identifier "t" 31]
                (MemberExpression (Identifier "t" 36) (Identifier "done" 38))]
             ["root"; "sort"] "slice"
             (Obj [("type", Str "query"); ("method", Str "slice");
                   ("from", Number 0%Z); ("to", Number 10%Z);
                   ("source", Obj [("type", Str "query"); ("db", Str "root");
                                   ("collection", Str "todos")])])).
    + cbn. tauto.
    + cbn. tauto.
    + reflexivity.
    + cbn. intros [H | [H | []]]; discriminate H.
  - apply (proj2 (proj2 (proj2 (proj2 chain_follows_registry)))
             empty_state root_config ("root", 0) ("todos", 5) ("t", 20)
             (MemberExpression (Identifier "t" 25) (Identifier "done" 27))
             ("t", 40) [(("title", 46), 53, ("name", 55))] 0%Z 10%Z).
    + reflexivity.
    + cbn. discriminate.
Defined.

(** C8.  For a member expression [db.collection.length] whose object
    [db.collection] is a property access on a recognized root (a configured
    identifier, or a reference of the binding of a recorded, initialised root
    declaration), analyzeMemberExpression, which allows root and length,
    produces the value node of the property "length" whose source is the
    command of the collection; so [root.todos.length] gives
    [Value{property: "length", source: {db: "root", collection: "todos"}}]. *)
Theorem length_of_collection :
  forall (state : State) (config : Config) (db collection : Ident) (start : nat),
    isRoot (root_reference db collection) state config = Return true ->
    (identifiers config = None -> initialised state = true) ->
    analyzeMemberExpression
      (MemberExpression (root_reference db collection) (Identifier "length" start))
      state config
    = Return (Some (length_command (collection_command db collection)))
    /\ length_command (collection_command db collection)
       = DbStatements.length (collection_command db collection).
Proof.
  intros state config db collection start Hroot Hinit.
  split; [| reflexivity].
  unfold analyzeMemberExpression, analyzer, makeAnalyzer.
  rewrite analyze_unfold. cbn [inner root_reference].
  fold (root_reference db collection).
  rewrite (root_resolved state config db collection
             (List.map id nodeDefinitions) Hroot Hinit eq_refl).
  unfold transition, root_reference, ident. cbn. reflexivity.
Qed.

(** [root.todos.length] with [root] a configured identifier. *)
Lemma length_of_collection_witness :
  isRoot (root_reference ("root", 0) ("todos", 5)) empty_state root_config
  = Return true
  /\ analyzeMemberExpression
       (MemberExpression (root_reference ("root", 0) ("todos", 5))
          (Identifier "length" 11))
       empty_state root_config
     = Return (Some (Obj [("type", Str "value"); ("property", Str "length");
                          ("source",
                            Obj [("type", Str "query"); ("db", Str "root");
                                 ("collection", Str "todos")])])).
Proof.
  split; [reflexivity |].
  apply (length_of_collection empty_state root_config ("root", 0) ("todos", 5) 11).
  - reflexivity.
  - cbn. discriminate.
Defined.

(** ** The plugin *)

Import Plugin.

Section PluginRun.

Variable analyzeImportDeclaration : Node -> State -> Config -> Completion (option Value * State).
Variable analyzeAssignmentExpression : Node -> State -> Config -> Completion (option Value).

Lemma transformPath_events (visitor : string) (path : Node)
  (analyze : Node -> State -> Config -> Completion (option Value * State))
  (state : State) (config : Config) :
  forallb (fun e => negb (is_validate e))
    (fst (transformPath visitor path analyze state config)) = true.
Proof.
  unfold transformPath.
  destruct (analyze path state config) as [[[analysis |] state'] | e];
    try reflexivity.
  destruct (truthy analysis); reflexivity.
Qed.

(** The traversal validates nothing. *)
Lemma traverse_events (paths : list Node) (state : State) (config : Config) :
  forallb (fun e => negb (is_validate e))
    (fst (traverse analyzeImportDeclaration analyzeAssignmentExpression
            paths state config)) = true.
Proof.
  revert state. induction paths as [| path rest IH]; intros state; [reflexivity |].
  cbn [traverse].
  assert (Hvisit : forallb (fun e => negb (is_validate e))
                     (fst (visitor analyzeImportDeclaration
                             analyzeAssignmentExpression path state config)) = true).
  { unfold visitor. destruct path; try reflexivity; apply transformPath_events. }
  destruct (visitor analyzeImportDeclaration analyzeAssignmentExpression
              path state config) as [events [state' | e]]; cbn [fst] in *.
  - specialize (IH state').
    destruct (traverse analyzeImportDeclaration analyzeAssignmentExpression
                rest state' config) as [events' outcome]. cbn [fst] in *.
    rewrite forallb_app, Hvisit, IH. reflexivity.
  - exact Hvisit.
Qed.

(** C9.  In a run of the plugin over a file the effective configuration is
    validated once, and that is the first thing that happens: the events of
    the run start with the validation and hold no other.  When the effective
    configuration has no root identifiers and neither a client nor a server
    package name, the run stops there with the error of the validation, no
    node analyzed; when it has root identifiers, or a client or a server
    package name, the validation passes and the run goes on with the
    traversal, whose events and outcome are those of the run. *)
Theorem configuration_validated_once :
  forall (config : Config) (opts : option Config) (paths : list Node),
    let effective := this_config config opts in
    let result :=
      run analyzeImportDeclaration analyzeAssignmentExpression config opts paths in
    let traversal :=
      traverse analyzeImportDeclaration analyzeAssignmentExpression
        paths {| rootDeclarations := None |} effective in
    (exists rest,
        fst result = Validate effective :: rest
        /\ forallb (fun e => negb (is_validate e)) rest = true)
    /\ (valid effective = false ->
        fst result = [Validate effective]
        /\ exists message, snd result = Throw (Err message))
    /\ (valid effective = true ->
        ensureValidConfiguration effective = Return tt
        /\ fst result = Validate effective :: fst traversal
        /\ snd result = snd traversal).
Proof.
  intros config opts paths. cbv zeta. unfold run, pre. cbv zeta.
  pose proof (traverse_events paths {| rootDeclarations := None |}
                (this_config config opts)) as Hevents.
  assert (Hvalid : ensureValidConfiguration (this_config config opts)
                   = if valid (this_config config opts) then Return tt
                     else Throw (Err ("Either a db identifier, or both clientPackageName and "
                                      ++ "serverPackageName has to be set in configuration."))).
  { unfold ensureValidConfiguration, valid.
    destruct (set_list (identifiers (this_config config opts)));
      destruct (set_string (clientPackageName (this_config config opts)));
      destruct (set_string (serverPackageName (this_config config opts)));
      reflexivity. }
  rewrite Hvalid.
  destruct (valid (this_config config opts)); cbn [bind].
  - destruct (traverse analyzeImportDeclaration analyzeAssignmentExpression paths
                {| rootDeclarations := None |} (this_config config opts))
      as [events outcome].
    cbn [fst snd app] in *.
    split; [exists events; split; [reflexivity | exact Hevents] |].
    split; [discriminate |]. intros _. auto.
  - cbn [fst snd].
    split; [exists []; split; reflexivity |].
    split; [| discriminate]. intros _. split; [reflexivity |].
    eexists. reflexivity.
Qed.

End PluginRun.

(** A file with the member expression [root.todos.length]: without any
    identifier the run stops at the validation; with the identifier [root]
    the expression is analyzed and transformed. *)
Lemma configuration_validated_once_witness :
  valid empty_config = false
  /\ fst (run no_import no_assignment empty_config None
            [MemberExpression (root_reference ("root", 0) ("todos", 5))
               (Identifier "length" 11)])
     = [Validate empty_config]
  /\ valid root_config = true
  /\ fst (run no_import no_assignment empty_config (Some root_config)
            [MemberExpression (root_reference ("root", 0) ("todos", 5))
               (Identifier "length" 11)])
     = Validate root_config
       :: fst (traverse no_import no_assignment
                 [MemberExpression (root_reference ("root", 0) ("todos", 5))
                    (Identifier "length" 11)]
                 empty_state root_config).
Proof.
  split; [reflexivity |]. split.
  - apply (proj1 (proj2 (configuration_validated_once no_import no_assignment
                           empty_config None
                           [MemberExpression (root_reference ("root", 0) ("todos", 5))
                              (Identifier "length" 11)]))).
    reflexivity.
  - split; [reflexivity |].
    apply (proj2 (proj2 (configuration_validated_once no_import no_assignment
                           empty_config (Some root_config)
                           [MemberExpression (root_reference ("root", 0) ("todos", 5))
                              (Identifier "length" 11)]))).
    reflexivity.
Defined.

(* ================================================================== *)
(** * Further properties *)

(** ** The command builders *)

Lemma lookup_set_same (k : string) (v : Value) (fields : list (string * Value)) :
  lookup k (set k v fields) = Some v.
Proof.
  induction fields as [| [k' v'] rest IH]; cbn.
  - rewrite String.eqb_refl. reflexivity.
  - destruct (String.eqb k k') eqn:E; cbn; rewrite ?String.eqb_refl, ?E; auto.
Qed.

Lemma lookup_set_other (k k' : string) (v : Value) (fields : list (string * Value)) :
  k <> k' -> lookup k (set k' v fields) = lookup k fields.
Proof.
  intros Hne. apply String.eqb_neq in Hne.
  induction fields as [| [k2 v2] rest IH]; cbn.
  - rewrite Hne. reflexivity.
  - destruct (String.eqb k' k2) eqn:E; cbn.
    + apply String.eqb_eq in E. subst k2. rewrite Hne. reflexivity.
    + rewrite IH. reflexivity.
Qed.

Lemma lookup_spread_absent (k : string) (props base : list (string * Value)) :
  lookup k props = None -> lookup k (spread base props) = lookup k base.
Proof.
  unfold spread. revert base.
  induction props as [| [k' v'] rest IH]; intros base H; cbn in *; [reflexivity |].
  destruct (String.eqb k k') eqn:E; [discriminate |].
  rewrite (IH _ H). apply lookup_set_other. apply String.eqb_neq. exact E.
Qed.

Lemma lookup_not_in (k : string) (fields : list (string * Value)) :
  ~ In k (List.map fst fields) -> lookup k fields = None.
Proof.
  induction fields as [| [k' v'] rest IH]; cbn; [reflexivity |].
  intros H. destruct (String.eqb_spec k k') as [-> | Hne].
  - exfalso. apply H. left. reflexivity.
  - apply IH. intros Hin. apply H. right. exact Hin.
Qed.

Lemma lookup_spread_present (k : string) (v : Value)
  (props base : list (string * Value)) :
  NoDup (List.map fst props) -> lookup k props = Some v ->
  lookup k (spread base props) = Some v.
Proof.
  unfold spread. revert base.
  induction props as [| [k' v'] rest IH]; intros base Hnd H; cbn in *; [discriminate |].
  inversion Hnd as [| ? ? Hnotin Hnd']; subst.
  destruct (String.eqb_spec k k') as [-> | Hne].
  - injection H as ->.
    change (lookup k' (spread (set k' v base) rest) = Some v).
    rewrite lookup_spread_absent by (apply lookup_not_in; exact Hnotin).
    apply lookup_set_same.
  - apply IH; assumption.
Qed.

(** X1.  Whatever the props, the node that createQuery, createValue or
    createModification builds has the source it was given: a [source] among
    the props is overwritten. *)
Theorem created_node_keeps_source :
  forall (name : string) (props source : Value),
    get "source" (DbStatements.createQuery name props source) = source
    /\ get "source" (DbStatements.createValue name props source) = source
    /\ get "source" (DbStatements.createModification name props source) = source.
Proof.
  intros. unfold DbStatements.createQuery, DbStatements.createValue,
    DbStatements.createModification, get.
  rewrite !lookup_set_same. auto.
Qed.

(** X2.  The props are spread after the tag and the method: props without a
    [type] and a [method] leave the node tagged "query" with the method it
    was built for, and props that have a [type] or a [method] replace them, so
    the tag of the node is whatever the props say. *)
Theorem createQuery_props_replace_tag :
  forall (name : string) (props source : Value),
    (has "type" props = false ->
     get "type" (DbStatements.createQuery name props source) = Str "query")
    /\ (has "method" props = false ->
        get "method" (DbStatements.createQuery name props source) = Str name)
    /\ (forall k, (k = "type" \/ k = "method") ->
        distinct_keys props -> has k props = true ->
        get k (DbStatements.createQuery name props source) = get k props).
Proof.
  intros name props source.
  assert (Hget : forall k, k <> "source" ->
            get k (DbStatements.createQuery name props source)
            = match lookup k (spread [("type", Str "query"); ("method", Str name)]
                                (DbStatements.own props)) with
              | Some v => v
              | None => Undefined
              end).
  { intros k Hk. unfold DbStatements.createQuery, get.
    rewrite lookup_set_other by exact Hk. reflexivity. }
  assert (Hhas : forall k, has k props = false -> lookup k (DbStatements.own props) = None).
  { intros k. unfold has, DbStatements.own.
    destruct props; try reflexivity.
    destruct (lookup k fields); [discriminate | reflexivity]. }
  split; [| split].
  - intros H. rewrite Hget by discriminate.
    rewrite lookup_spread_absent by (apply Hhas; exact H). reflexivity.
  - intros H. rewrite Hget by discriminate.
    rewrite lookup_spread_absent by (apply Hhas; exact H). reflexivity.
  - intros k Hk Hnd H.
    rewrite Hget by (destruct Hk as [-> | ->]; discriminate).
    unfold has in H. unfold distinct_keys, keys in Hnd.
    destruct props as [| | | | | | | fields |]; try discriminate.
    cbn [DbStatements.own get] in *.
    destruct (lookup k fields) as [v |] eqn:Hk'; [| discriminate].
    rewrite (lookup_spread_present k v fields _ Hnd Hk'). reflexivity.
Qed.

(** Props that carry a type of their own: the node is no longer tagged
    "query". *)
Lemma createQuery_props_replace_tag_witness :
  has "method" (Obj [("type", Str "value")]) = false
  /\ distinct_keys (Obj [("type", Str "value")])
  /\ get "type" (DbStatements.createQuery "filter" (Obj [("type", Str "value")])
                   todos_command)
     = Str "value"
  /\ get "method" (DbStatements.createQuery "filter" (Obj [("type", Str "value")])
                     todos_command)
     = Str "filter".
Proof.
  assert (Hnd : distinct_keys (Obj [("type", Str "value")])).
  { unfold distinct_keys, keys. cbn. constructor; [intros [] | constructor]. }
  split; [reflexivity |]. split; [exact Hnd |]. split.
  - exact (proj2 (proj2 (createQuery_props_replace_tag "filter"
                           (Obj [("type", Str "value")]) todos_command))
             "type" (or_introl eq_refl) Hnd eq_refl).
  - exact (proj1 (proj2 (createQuery_props_replace_tag "filter"
                           (Obj [("type", Str "value")]) todos_command))
             eq_refl).
Defined.

(** X3.  The root node that the code builds never has the shape the test
    fixtures expect of a source: createCollection gives the keys type, db and
    collection, the fixtures have module and identifier in place of db.  And
    no node built by [sort] has the key [operation] of the sort fixture: it
    has [method]. *)
Theorem commands_differ_from_fixtures :
  (forall args node : Value,
      DbStatements.createCollection args = Return node ->
      keys node = ["type"; "db"; "collection"]
      /\ node <> get "source" Fixtures.sort_expected
      /\ node <> get "source" Fixtures.select_expected)
  /\ (forall command fields : Value,
         has "operation" (DbStatements.sort command fields) = false
         /\ has "operation" Fixtures.sort_expected = true
         /\ keys (DbStatements.sort command fields)
            = ["type"; "method"; "fields"; "source"]
         /\ DbStatements.sort command fields <> Fixtures.sort_expected).
Proof.
  split.
  - intros args node H. unfold DbStatements.createCollection in H.
    destruct (member args "db") as [db |]; [| discriminate].
    destruct (member args "collection") as [collection |]; [| discriminate].
    cbn in H. injection H as <-.
    split; [reflexivity |]. split; cbn; discriminate.
  - intros command fields. repeat split; try reflexivity.
    cbn. discriminate.
Qed.

Lemma commands_differ_from_fixtures_witness :
  DbStatements.createCollection
    (Obj [("db", Str "myDb"); ("collection", Str "todos")])
  = Return (Obj [("type", Str "query"); ("db", Str "myDb");
                 ("collection", Str "todos")])
  /\ Obj [("type", Str "query"); ("db", Str "myDb"); ("collection", Str "todos")]
     <> get "source" Fixtures.sort_expected.
Proof.
  split; [reflexivity |].
  apply (proj1 commands_differ_from_fixtures
           (Obj [("db", Str "myDb"); ("collection", Str "todos")])).
  reflexivity.
Defined.

(** ** The root of a chain *)

Lemma existsb_eqb_In (name : string) (ids : list string) :
  existsb (fun y => same_value_zero y (Str name)) (List.map Str ids) = true
  <-> In name ids.
Proof.
  induction ids as [| i rest IH]; cbn; [split; [discriminate | intros []] |].
  rewrite orb_true_iff, IH, String.eqb_eq. split; intros [H | H]; auto.
Qed.

(** X4.  With root identifiers configured, isRoot never throws and never
    looks at the state: it answers true exactly for a property access whose
    object is an identifier named in the configuration, at whatever position,
    whether or not a root declaration binds it. *)
Theorem isRoot_with_identifiers :
  forall (path : Node) (state : State) (config : Config) (ids : list string),
    identifiers config = Some ids ->
    exists answer,
      isRoot path state config = Return answer
      /\ (forall state', isRoot path state' config = Return answer)
      /\ (answer = true
          <-> exists name start property,
                path = reference name start property /\ In name ids).
Proof.
  intros path state config ids Hids. unfold isRoot. rewrite Hids.
  destruct path as [| | | | object property | | | | | | | | | |];
    try (exists false; cbn; split; [reflexivity |]; split; [reflexivity |];
         split; [discriminate | intros [n [s [p [H _]]]]; discriminate]).
  destruct object as [name start | | | | | | | | | | | | | |];
    try (exists false; cbn; split; [reflexivity |]; split; [reflexivity |];
         split; [discriminate | intros [n [s [p [H _]]]]; discriminate]).
  cbn. exists (includes (List.map Str ids) (Str name)).
  split; [reflexivity |]. split; [reflexivity |].
  unfold includes. rewrite existsb_eqb_In. split.
  - intros H. exists name, start, property. auto.
  - intros [n [s [p [H Hin]]]]. injection H as -> _ _. exact Hin.
Qed.

Lemma isRoot_with_identifiers_witness :
  exists answer,
    isRoot (reference "root" 0 (Identifier "todos" 5)) empty_state root_config
    = Return answer
    /\ (forall state',
           isRoot (reference "root" 0 (Identifier "todos" 5)) state' root_config
           = Return answer)
    /\ (answer = true
        <-> exists name start property,
              reference "root" 0 (Identifier "todos" 5)
              = reference name start property /\ In name ["root"]).
Proof.
  exact (isRoot_with_identifiers (reference "root" 0 (Identifier "todos" 5))
           empty_state root_config ["root"] eq_refl).
Defined.

Lemma node_eqb_identifier_eq (p : Node) (name : string) (start : nat) :
  node_eqb_identifier p (Identifier name start) = true <-> p = Identifier name start.
Proof.
  destruct p; cbn; try (split; discriminate).
  rewrite andb_true_iff, String.eqb_eq, Nat.eqb_eq. split.
  - intros [-> ->]. reflexivity.
  - intros H. injection H as -> ->. auto.
Qed.

(** X5.  Without configured identifiers, isRoot goes by the recorded root
    declarations.  A property access on an identifier is a root exactly when
    some declaration has a binding of that name whose references hold this
    very identifier node: an identifier of the same name at a position that
    no declaration references is not a root.  In the initial state, which
    records nothing, the test throws a TypeError on such an access; on any
    other node it answers false without reading the state. *)
Theorem isRoot_by_declarations :
  forall (config : Config) (name : string) (start : nat) (property : Node),
    without_identifiers config ->
    (forall refs,
        isRoot (reference name start property)
          {| rootDeclarations := Some refs |} config
        = Return true
        <-> exists ref nodes,
              In ref refs /\ binding name (bindings ref) = Some nodes
              /\ In (Identifier name start) nodes)
    /\ (forall refs,
           exists answer,
             isRoot (reference name start property)
               {| rootDeclarations := Some refs |} config
             = Return answer)
    /\ (exists message,
           isRoot (reference name start property)
             {| rootDeclarations := None |} config
           = Throw (TypeError message))
    /\ (forall (path : Node) (state : State),
           (forall n s p, path <> reference n s p) ->
           isRoot path state config = Return false).
Proof.
  intros config name start property Hno. unfold without_identifiers in Hno.
  split; [| split; [| split]].
  - intros refs. unfold isRoot, reference. rewrite Hno.
    cbn [isMemberExpression isIdentifier field String.eqb Ascii.eqb Bool.eqb andb
         rootDeclarations scalar toString].
    split.
    + intros H. injection H as H. apply existsb_exists in H.
      destruct H as [ref [Hin Href]]. unfold references in Href.
      destruct (binding name (bindings ref)) as [nodes |] eqn:Hb; [| discriminate].
      apply existsb_exists in Href. destruct Href as [p [Hp Heq]].
      apply node_eqb_identifier_eq in Heq. subst p.
      exists ref, nodes. auto.
    + intros [ref [nodes [Hin [Hb Hnode]]]]. f_equal.
      apply existsb_exists. exists ref. split; [exact Hin |].
      unfold references. rewrite Hb. apply existsb_exists.
      exists (Identifier name start). split; [exact Hnode |].
      apply node_eqb_identifier_eq. reflexivity.
  - intros refs. unfold isRoot, reference. rewrite Hno. cbn. eexists. reflexivity.
  - unfold isRoot, reference. rewrite Hno. cbn. eexists. reflexivity.
  - intros path state Hshape. unfold isRoot.
    destruct path as [| | | | object prop | | | | | | | | | |]; try reflexivity.
    destruct object as [n s | | | | | | | | | | | | | |]; try reflexivity.
    exfalso. apply (Hshape n s prop). reflexivity.
Qed.

(** The declaration of [db] references the identifier at position 20, not
    the one at position 40. *)
Lemma isRoot_by_declarations_witness :
  without_identifiers empty_config
  /\ isRoot (reference "db" 20 (Identifier "todos" 23))
       {| rootDeclarations :=
            Some [ {| bindings := [("db", [Identifier "db" 20])];
                      init_arguments := Some [StringLiteral "todos-db"] |} ] |}
       empty_config
     = Return true
  /\ (forall state,
         isRoot (Identifier "db" 20) state empty_config = Return false).
Proof.
  assert (Hno : without_identifiers empty_config) by reflexivity.
  split; [exact Hno |]. split.
  - apply (proj1 (isRoot_by_declarations empty_config "db" 20
                    (Identifier "todos" 23) Hno)).
    exists {| bindings := [("db", [Identifier "db" 20])];
              init_arguments := Some [StringLiteral "todos-db"] |},
      [Identifier "db" 20].
    split; [left; reflexivity |]. split; [reflexivity | left; reflexivity].
  - intros state.
    apply (proj2 (proj2 (proj2 (isRoot_by_declarations empty_config "db" 20
                                  (Identifier "todos" 23) Hno)))).
    intros n s p. discriminate.
Defined.

(** X6.  Whenever getRootArgs returns, in either mode, it returns the name
    of the object as [db] and the name of the property as [collection]: the
    argument of the call that initialises the root declaration is read and
    dropped.  It throws only without configured identifiers, and then a
    TypeError: when nothing is recorded, when no declaration references the
    object, or when the declaration found has no initialising call with an
    argument. *)
Theorem getRootArgs_names_the_identifier :
  forall (object property : Node) (state : State) (config : Config),
    match getRootArgs (MemberExpression object property) state config with
    | Return args =>
        args = Obj [("db", scalar "name" object);
                    ("collection", scalar "name" property)]
    | Throw e =>
        without_identifiers config /\ exists message, e = TypeError message
    end.
Proof.
  intros object property state config. unfold getRootArgs, without_identifiers.
  destruct (identifiers config) as [ids |]; [reflexivity |].
  destruct (rootDeclarations state) as [[| ref0 refs] |];
    try (split; [reflexivity | eexists; reflexivity]).
  cbn [get_path field String.eqb Ascii.eqb Bool.eqb bind node_scalar].
  destruct (List.find _ _) as [ref |];
    [| split; [reflexivity | eexists; reflexivity]].
  destruct (init_arguments ref) as [[| a rest] |];
    try (split; [reflexivity | eexists; reflexivity]).
  reflexivity.
Qed.

(** ** The extractors of the arguments *)

(** X7.  getSliceArgs reads the [value] of the first two arguments and
    nothing else: with fewer than two arguments it throws a TypeError (so
    [slice(5)] is refused), further arguments are ignored, and an argument
    that is not a literal gives an undefined bound instead of an error. *)
Theorem getSliceArgs_reads_two_values :
  forall (state : State) (config : Config),
    (exists message, getSliceArgs [] state config = Throw (TypeError message))
    /\ (forall a,
           exists message, getSliceArgs [a] state config = Throw (TypeError message))
    /\ (forall a b rest,
           getSliceArgs (a :: b :: rest) state config
           = Return (Obj [("from", scalar "value" a); ("to", scalar "value" b)]))
    /\ (forall (name : string) (start : nat) (to : Z),
           getSliceArgs [Identifier name start; NumericLiteral to] state config
           = Return (Obj [("from", Undefined); ("to", Number to)])).
Proof.
  intros state config. split; [| split; [| split]].
  - eexists. reflexivity.
  - intros a. eexists. reflexivity.
  - intros a b rest. reflexivity.
  - intros name start to. reflexivity.
Qed.

(** X8.  getMapArgs refuses, with the error of the source, every
    one-parameter arrow function whose body is not an object expression,
    whatever the body is. *)
Theorem getMapArgs_needs_an_object :
  forall (param body : Node) (rest : list Node) (state : State) (config : Config),
    isObjectExpression (Some body) = false ->
    getMapArgs (ArrowFunctionExpression [param] body :: rest) state config
    = Throw (Err "The map expression should return an object.").
Proof.
  intros param body rest state config Hbody. unfold getMapArgs.
  cbn [at_ nth_error assertUnaryArrowFunction bind get_path field String.eqb
       Ascii.eqb Bool.eqb].
  rewrite Hbody. reflexivity.
Qed.

(** [t => t.title] *)
Lemma getMapArgs_needs_an_object_witness :
  isObjectExpression
    (Some (MemberExpression (Identifier "t" 5) (Identifier "title" 7))) = false
  /\ getMapArgs
       [ArrowFunctionExpression [Identifier "t" 0]
          (MemberExpression (Identifier "t" 5) (Identifier "title" 7))]
       empty_state root_config
     = Throw (Err "The map expression should return an object.").
Proof.
  split; [reflexivity |].
  apply getMapArgs_needs_an_object. reflexivity.
Defined.

(** X9.  getFilterArgs returns the body of its first argument as it stands
    exactly when that argument is an arrow function of one parameter,
    whatever follows it; on any other list of arguments, the empty one too,
    it throws. *)
Theorem getFilterArgs_returns_the_body :
  forall (path : list Node) (state : State) (config : Config),
    match getFilterArgs path state config with
    | Return predicate =>
        exists param body rest,
          path = ArrowFunctionExpression [param] body :: rest
          /\ predicate = node_of body
    | Throw _ =>
        forall param body rest, path <> ArrowFunctionExpression [param] body :: rest
    end.
Proof.
  intros path state config. unfold getFilterArgs.
  destruct path as [| fnExpr rest]; [cbn; intros; discriminate |].
  destruct fnExpr as [| | | | | | params body | | | | | | | |];
    try (cbn; intros; discriminate).
  destruct params as [| param [| second more]]; try (cbn; intros; discriminate).
  cbn. exists param, body, rest. auto.
Qed.

(** X10.  For an arrow function of one parameter that returns an object
    whose every value is a property of the parameter, getMapArgs returns one
    pair of the key and the property read per property of the object, in the
    order of the source; the result does not depend on the name of the
    parameter nor on what follows the function. *)
Theorem getMapArgs_pairs_in_order :
  forall (q q' : Ident) (fields : list Field) (rest rest' : list Node)
         (state : State) (config : Config),
    exists pairs,
      getMapArgs (projection q fields :: rest) state config = Return (Arr pairs)
      /\ getMapArgs (projection q' fields :: rest') state config = Return (Arr pairs)
      /\ List.length pairs = List.length fields
      /\ (forall i f, nth_error fields i = Some f ->
          nth_error pairs i
          = Some (Arr [Str (fst (fst (fst f))); Str (fst (snd f))])).
Proof.
  intros q q' fields rest rest' state config.
  exists (List.map field_pair fields).
  rewrite !getMapArgs_projection.
  split; [reflexivity |]. split; [reflexivity |].
  split; [apply length_map |].
  intros i f Hf. rewrite nth_error_map, Hf. reflexivity.
Qed.

(** X11.  With the operators >= and <= getSortArgs never answers ascending:
    whatever the order of the operands, a comparator that it accepts with one
    of these operators is given the descriptor of a descending sort. *)
Theorem getSortArgs_non_strict_is_descending :
  forall (p1 p2 : Ident) (operator : string) (lo lp ro rp : Ident)
         (rest : list Node) (state : State) (config : Config) (fields : Value),
    operator = ">=" \/ operator = "<=" ->
    getSortArgs (relational_comparator p1 p2 operator lo lp ro rp :: rest)
      state config = Return fields ->
    fields = Arr [sort_descriptor (fst lp) false].
Proof.
  intros p1 p2 operator lo lp ro rp rest state config fields Hop.
  rewrite getSortArgs_decides.
  repeat match goal with
         | |- context [if ?b then _ else _] => destruct b; try discriminate
         end.
  destruct Hop as [-> | ->]; cbn; intros H; injection H as <-; reflexivity.
Qed.

(** [(x, y) => x.a >= y.a] and [(x, y) => y.a <= x.a] *)
Lemma getSortArgs_non_strict_is_descending_witness :
  getSortArgs
    [relational_comparator ("x", 1) ("y", 4) ">=" ("x", 10) ("a", 12) ("y", 17) ("a", 19)]
    empty_state root_config
  = Return (Arr [sort_descriptor "a" false])
  /\ Arr [sort_descriptor "a" false] = Arr [sort_descriptor "a" false].
Proof.
  split; [reflexivity |].
  apply (getSortArgs_non_strict_is_descending ("x", 1) ("y", 4) ">="
           ("x", 10) ("a", 12) ("y", 17) ("a", 19) [] empty_state root_config
           (Arr [sort_descriptor "a" false]) (or_introl eq_refl)).
  reflexivity.
Defined.

(** X12.  For a comparator with two distinct formals that getSortArgs
    accepts with the operator >, the mirrored comparator (operands exchanged,
    operator <) gets the same descriptor, and exchanging the operands alone,
    or replacing > by < alone, gets the descriptor of the opposite order. *)
Theorem getSortArgs_mirror :
  forall (p1 p2 : Ident) (lo lp ro rp : Ident)
         (state : State) (config : Config) (field : string) (ascending : bool),
    fst p1 <> fst p2 ->
    getSortArgs [relational_comparator p1 p2 ">" lo lp ro rp] state config
    = Return (Arr [sort_descriptor field ascending]) ->
    getSortArgs [relational_comparator p1 p2 "<" ro rp lo lp] state config
    = Return (Arr [sort_descriptor field ascending])
    /\ getSortArgs [relational_comparator p1 p2 ">" ro rp lo lp] state config
       = Return (Arr [sort_descriptor field (negb ascending)])
    /\ getSortArgs [relational_comparator p1 p2 "<" lo lp ro rp] state config
       = Return (Arr [sort_descriptor field (negb ascending)]).
Proof.
  intros p1 p2 lo lp ro rp state config field ascending Hdistinct.
  rewrite !getSortArgs_decides.
  cbn [relational mem existsb String.eqb Ascii.eqb Bool.eqb orb negb andb].
  rewrite (String.eqb_sym (fst rp) (fst lp)).
  rewrite !(String.eqb_sym (fst lo)), !(String.eqb_sym (fst ro)).
  assert (Hlo : String.eqb (fst p1) (fst lo) && String.eqb (fst p2) (fst lo) = false).
  { destruct (String.eqb_spec (fst p1) (fst lo));
      destruct (String.eqb_spec (fst p2) (fst lo)); try reflexivity. congruence. }
  assert (Hro : String.eqb (fst p1) (fst ro) && String.eqb (fst p2) (fst ro) = false).
  { destruct (String.eqb_spec (fst p1) (fst ro));
      destruct (String.eqb_spec (fst p2) (fst ro)); try reflexivity. congruence. }
  destruct (String.eqb (fst lp) (fst rp)) eqn:Hprop.
  - apply String.eqb_eq in Hprop. rewrite Hprop.
    destruct (String.eqb (fst p1) (fst lo)), (String.eqb (fst p2) (fst lo)),
      (String.eqb (fst p1) (fst ro)), (String.eqb (fst p2) (fst ro));
      try discriminate Hlo; try discriminate Hro;
      cbn; intros H; try discriminate H; injection H as <- <-; auto.
  - destruct (String.eqb (fst p1) (fst lo) || String.eqb (fst p2) (fst lo));
      cbn; discriminate.
Qed.

(** [(x, y) => x.a > y.a] *)
Lemma getSortArgs_mirror_witness :
  "x" <> "y"
  /\ getSortArgs
       [relational_comparator ("x", 1) ("y", 4) ">" ("x", 10) ("a", 12) ("y", 16) ("a", 18)]
       empty_state root_config
     = Return (Arr [sort_descriptor "a" true])
  /\ getSortArgs
       [relational_comparator ("x", 1) ("y", 4) "<" ("y", 16) ("a", 18) ("x", 10) ("a", 12)]
       empty_state root_config
     = Return (Arr [sort_descriptor "a" true]).
Proof.
  assert (Hdistinct : "x" <> "y") by discriminate.
  split; [exact Hdistinct |]. split; [reflexivity |].
  apply (getSortArgs_mirror ("x", 1) ("y", 4) ("x", 10) ("a", 12) ("y", 16) ("a", 18)
           empty_state root_config "a" true Hdistinct).
  reflexivity.
Defined.

(** ** The sort schema *)

(** X13.  getSortExpression1 never returns a descriptor, whatever it is
    given: it returns the Skip about the fields when the four properties are
    not all equal, and it throws otherwise, a ReferenceError on [val], or a
    TypeError when its argument is undefined or null. *)
Theorem getSortExpression1_never_describes :
  forall arg : Value,
    match SortSchema.getSortExpression1 arg with
    | Return outcome =>
        outcome = Skip "All fields in the sort expression must be the same."
    | Throw e =>
        e = ReferenceError "val"
        \/ ((arg = Undefined \/ arg = Null) /\ exists message, e = TypeError message)
    end.
Proof.
  intros arg. unfold SortSchema.getSortExpression1.
  destruct (member arg "param1") as [v | e] eqn:Hmember.
  - cbv beta iota delta [bind].
    destruct (strict_equals (get "lhsProp1" arg) (get "rhsProp1" arg)
              && strict_equals (get "lhsProp1" arg) (get "lhsProp2" arg)
              && strict_equals (get "lhsProp1" arg) (get "rhsProp2" arg));
      [| reflexivity].
    cbv zeta. cbn [mapM]. rewrite !val_unbound. left. reflexivity.
  - cbn [bind]. right. destruct arg; try discriminate Hmember;
      cbn in Hmember; injection Hmember as <-; (split; [auto | eexists; reflexivity]).
Qed.

Lemma getSortExpression2_decides (p1 p2 : Ident) (negation : option string)
  (lo lp ro rp : Ident) :
  SortSchema.getSortExpression2 (subtraction_captures p1 p2 negation lo lp ro rp)
  = if (String.eqb (fst lo) (fst p1) || String.eqb (fst ro) (fst p1))
       && (String.eqb (fst lo) (fst p2) || String.eqb (fst ro) (fst p2))
    then
      if String.eqb (fst lp) (fst rp)
      then Return (Plain (Obj [("field", Str (fst lp));
                               ("ascending",
                                 Boolean (if negated negation
                                          then String.eqb (fst p1) (fst ro)
                                          else String.eqb (fst p1) (fst lo)))]))
      else Return (Skip ("The sort expression must reference the same property "
                         ++ "on compared objects."))
    else Return (Skip ("The sort expression must reference parameters "
                       ++ fst p1 ++ " and " ++ fst p2 ++ ".")).
Proof.
  rewrite <- compareFn2_subtraction. apply compareFn2_decides.
Qed.

(** X14.  For two distinct formals, when getSortExpression2 gives a
    descriptor for the captures of a difference, it gives the descriptor of
    the opposite order for the captures of the negated difference, and also
    for the captures of the difference with its operands exchanged; negating
    and exchanging together gives the first descriptor again. *)
Theorem getSortExpression2_negation_and_exchange :
  forall (p1 p2 lo lp ro rp : Ident) (field : Value) (ascending : bool),
    fst p1 <> fst p2 ->
    SortSchema.getSortExpression2 (subtraction_captures p1 p2 None lo lp ro rp)
    = Return (Plain (Obj [("field", field); ("ascending", Boolean ascending)])) ->
    SortSchema.getSortExpression2 (subtraction_captures p1 p2 (Some "-") lo lp ro rp)
    = Return (Plain (Obj [("field", field); ("ascending", Boolean (negb ascending))]))
    /\ SortSchema.getSortExpression2 (subtraction_captures p1 p2 None ro rp lo lp)
       = Return (Plain (Obj [("field", field); ("ascending", Boolean (negb ascending))]))
    /\ SortSchema.getSortExpression2 (subtraction_captures p1 p2 (Some "-") ro rp lo lp)
       = Return (Plain (Obj [("field", field); ("ascending", Boolean ascending)])).
Proof.
  intros p1 p2 lo lp ro rp field ascending Hdistinct.
  rewrite !getSortExpression2_decides. cbn [negated String.eqb Ascii.eqb Bool.eqb].
  rewrite (String.eqb_sym (fst rp) (fst lp)).
  rewrite !(String.eqb_sym (fst lo)), !(String.eqb_sym (fst ro)).
  assert (Hlo : String.eqb (fst p1) (fst lo) && String.eqb (fst p2) (fst lo) = false).
  { destruct (String.eqb_spec (fst p1) (fst lo));
      destruct (String.eqb_spec (fst p2) (fst lo)); try reflexivity. congruence. }
  assert (Hro : String.eqb (fst p1) (fst ro) && String.eqb (fst p2) (fst ro) = false).
  { destruct (String.eqb_spec (fst p1) (fst ro));
      destruct (String.eqb_spec (fst p2) (fst ro)); try reflexivity. congruence. }
  destruct (String.eqb (fst lp) (fst rp)) eqn:Hprop.
  - apply String.eqb_eq in Hprop. rewrite Hprop.
    destruct (String.eqb (fst p1) (fst lo)), (String.eqb (fst p2) (fst lo)),
      (String.eqb (fst p1) (fst ro)), (String.eqb (fst p2) (fst ro));
      try discriminate Hlo; try discriminate Hro;
      cbn; intros H; try discriminate H; injection H as <- <-; auto.
  - destruct ((String.eqb (fst p1) (fst lo) || String.eqb (fst p1) (fst ro))
              && (String.eqb (fst p2) (fst lo) || String.eqb (fst p2) (fst ro)));
      discriminate.
Qed.

(** The captures of [(x, y) => x.a - y.a]. *)
Lemma getSortExpression2_negation_and_exchange_witness :
  "x" <> "y"
  /\ SortSchema.getSortExpression2
       (subtraction_captures ("x", 1) ("y", 4) None ("x", 10) ("a", 12) ("y", 16) ("a", 18))
     = Return (Plain (Obj [("field", Str "a"); ("ascending", Boolean true)]))
  /\ SortSchema.getSortExpression2
       (subtraction_captures ("x", 1) ("y", 4) (Some "-")
          ("x", 10) ("a", 12) ("y", 16) ("a", 18))
     = Return (Plain (Obj [("field", Str "a"); ("ascending", Boolean false)])).
Proof.
  assert (Hdistinct : "x" <> "y") by discriminate.
  split; [exact Hdistinct |]. split; [reflexivity |].
  apply (getSortExpression2_negation_and_exchange
           ("x", 1) ("y", 4) ("x", 10) ("a", 12) ("y", 16) ("a", 18)
           (Str "a") true Hdistinct).
  reflexivity.
Defined.

(** X15.  The descending form of the subtraction idiom accepts any unary
    operator, and only the minus negates: under any other operator, as in
    [(x, y) => +(x.a - y.a)] or [(x, y) => !(x.a - y.a)], compareFn2 answers as
    it does for the bare difference. *)
Theorem compareFn2_only_minus_negates :
  forall (p1 p2 : Ident) (operator : string) (lo lp ro rp : Ident),
    operator <> "-" ->
    SortSchema.compareFn2
      (node_of (subtraction_comparator p1 p2 (Some operator) lo lp ro rp))
    = SortSchema.compareFn2
        (node_of (subtraction_comparator p1 p2 None lo lp ro rp)).
Proof.
  intros p1 p2 operator lo lp ro rp Hop.
  rewrite !compareFn2_decides. unfold negated.
  apply String.eqb_neq in Hop. rewrite Hop. reflexivity.
Qed.

(** [(x, y) => !(x.a - y.a)] is ascending on a. *)
Lemma compareFn2_only_minus_negates_witness :
  "!" <> "-"
  /\ SortSchema.compareFn2
       (node_of (subtraction_comparator ("x", 1) ("y", 4) (Some "!")
                   ("x", 11) ("a", 13) ("y", 17) ("a", 19)))
     = Return (Plain (Obj [("field", Str "a"); ("ascending", Boolean true)])).
Proof.
  assert (Hop : "!" <> "-") by discriminate.
  split; [exact Hop |].
  rewrite (compareFn2_only_minus_negates ("x", 1) ("y", 4) "!"
             ("x", 11) ("a", 13) ("y", 17) ("a", 19) Hop).
  reflexivity.
Defined.

(** X16.  The build function of the exported sort schema hands the
    builder an object [{ fields: ... }] where it takes the fields themselves,
    so the descriptors of the command end up one level down, under
    [fields.fields], unlike in the command of the read analyzer; a result
    that is not a Match is returned as it is. *)
Theorem sort_schema_build_nests_fields :
  (forall (object arguments : Value) (others : list (string * Value)),
      exists command,
        SortSchema.build
          (Match (Obj (("object", object) :: ("arguments", arguments) :: others)))
        = Return (Plain command)
        /\ get "fields" command = Obj [("fields", arguments)]
        /\ get "fields" (get "fields" command) = arguments
        /\ get "source" command = object
        /\ get "fields" (DbStatements.sort object arguments) = arguments)
  /\ (forall result, isMatch result = false ->
                     SortSchema.build result = Return result).
Proof.
  split.
  - intros object arguments others. eexists. split; [reflexivity |].
    repeat split; reflexivity.
  - intros result H. unfold SortSchema.build. rewrite H. reflexivity.
Qed.

Lemma sort_schema_build_nests_fields_witness :
  isMatch (Skip "no sort") = false
  /\ SortSchema.build (Skip "no sort") = Return (Skip "no sort").
Proof.
  split; [reflexivity |].
  apply (proj2 sort_schema_build_nests_fields). reflexivity.
Defined.

(** ** The update schema *)

(** X17.  The build functions of the two comparator schemas return a
    result that is not a Match as it is, so a Skip of the structural match
    stays a Skip.  The build function of the update schema reads
    [result.value.left] without that test: on a Skip, on a function, on
    undefined and null, on a primitive and on an array it throws a TypeError,
    and a plain object is treated like the Match of its [value] property. *)
Theorem build_of_a_non_match :
  forall result : Result,
    isMatch result = false ->
    SortSchema.compareFn1_build result = Return result
    /\ SortSchema.compareFn2_build result = Return result
    /\ match result with
       | Plain (Obj fields) =>
           UpdateSchema.build result
           = UpdateSchema.build (Match (get "value" (Obj fields)))
       | Plain (Opaque _) => True
       | _ => exists message, UpdateSchema.build result = Throw (TypeError message)
       end.
Proof.
  intros result H.
  unfold SortSchema.compareFn1_build, SortSchema.compareFn2_build. rewrite H.
  split; [reflexivity |]. split; [reflexivity |].
  destruct result as [v | reason | v | call]; try discriminate H.
  - cbn. eexists. reflexivity.
  - destruct v; first [reflexivity | exact I | cbn; eexists; reflexivity].
  - cbn. eexists. reflexivity.
Qed.

(** The Skip of a node that is not an assignment gives a TypeError; the
    plain object [{ value: { left: 1, object: 2 } }] gets as far as the
    [new Skip] of the two collections, which throws on the name Skip. *)
Lemma build_of_a_non_match_witness :
  isMatch (Skip "Expected AssignmentExpression.") = false
  /\ SortSchema.compareFn2_build (Skip "Expected AssignmentExpression.")
     = Return (Skip "Expected AssignmentExpression.")
  /\ (exists message,
         UpdateSchema.build (Skip "Expected AssignmentExpression.")
         = Throw (TypeError message))
  /\ UpdateSchema.build
       (Plain (Obj [("value", Obj [("left", Number 1); ("object", Number 2)])]))
     = Throw (ReferenceError "Skip").
Proof.
  split; [reflexivity |].
  split; [exact (proj1 (proj2 (build_of_a_non_match
                                 (Skip "Expected AssignmentExpression.") eq_refl))) |].
  split; [exact (proj2 (proj2 (build_of_a_non_match
                                 (Skip "Expected AssignmentExpression.") eq_refl))) |].
  rewrite (proj2 (proj2 (build_of_a_non_match
                           (Plain (Obj [("value", Obj [("left", Number 1);
                                                       ("object", Number 2)])]))
                           eq_refl))).
  reflexivity.
Defined.

(** X18.  The test that getArrowFunctionBody puts on the unchanged branch
    of an update compares the type and the name of the node with those of the
    parameter and nothing else: it holds exactly for an identifier of the
    name of the parameter, at any position. *)
Theorem update_identifier_test :
  forall (name : string) (node : Node),
    let identifier := Obj [("type", Str "Identifier"); ("name", Str name)] in
    equals (Obj (UpdateSchema.pick (keys identifier) (node_of node))) identifier = true
    <-> exists start, node = Identifier name start.
Proof.
  intros name node. cbv zeta. unfold keys. cbn [DbStatements.own List.map fst].
  destruct node as [n0 s0 | | | | | | | | | | | | | |]; cbn;
    try (split; [discriminate | intros [pos H]; discriminate]).
  rewrite andb_true_r. rewrite String.eqb_eq. split.
  - intros ->. eexists. reflexivity.
  - intros [pos H]. injection H as -> _. reflexivity.
Qed.

(** X19.  On every node compareFn2 returns: it never throws.  It returns a
    descriptor only for an arrow function of two identifiers whose body is a
    difference of two properties of identifiers, bare or under a unary
    operator, and a Skip for everything else. *)
Theorem compareFn2_never_throws :
  forall node : Node,
    match SortSchema.compareFn2 (node_of node) with
    | Return (Skip _) => True
    | Return (Plain _) =>
        exists p1 p2 negation lo lp ro rp,
          node = subtraction_comparator p1 p2 negation lo lp ro rp
    | _ => False
    end.
Proof.
  intros node.
  destruct node as [| | | | | | params body | | | | | | | |]; try exact I.
  destruct params as [| a params]; [exact I |].
  destruct a as [p1 s1 | | | | | | | | | | | | | |]; try exact I.
  destruct params as [| b params]; [exact I |].
  destruct b as [p2 s2 | | | | | | | | | | | | | |]; try exact I.
  destruct params as [| c params]; [| exact I].
  destruct body as [| | | | | | | operator l r | operator argument | | | | | |];
    try exact I.
  - destruct l as [| | | | lo lp | | | | | | | | | |]; try exact I.
    destruct lo as [lo slo | | | | | | | | | | | | | |]; try exact I.
    destruct lp as [lp slp | | | | | | | | | | | | | |]; try exact I.
    destruct (String.eqb_spec operator "-") as [-> | Hop].
    + destruct r as [| | | | ro rp | | | | | | | | | |]; try exact I.
      destruct ro as [ro sro | | | | | | | | | | | | | |]; try exact I.
      destruct rp as [rp srp | | | | | | | | | | | | | |]; try exact I.
      change (ArrowFunctionExpression [Identifier p1 s1; Identifier p2 s2]
                (BinaryExpression "-"
                   (MemberExpression (Identifier lo slo) (Identifier lp slp))
                   (MemberExpression (Identifier ro sro) (Identifier rp srp))))
        with (subtraction_comparator (p1, s1) (p2, s2) None
                (lo, slo) (lp, slp) (ro, sro) (rp, srp)).
      rewrite compareFn2_decides.
      repeat match goal with
             | |- context [if ?b then _ else _] => destruct b
             end; try exact I; repeat eexists.
    + apply String.eqb_neq in Hop. unfold SortSchema.compareFn2. cbn. rewrite Hop. cbn. exact I.
  - destruct argument as [| | | | | | | operator2 l r | | | | | | |]; try exact I.
    destruct l as [| | | | lo lp | | | | | | | | | |]; try exact I.
    destruct lo as [lo slo | | | | | | | | | | | | | |]; try exact I.
    destruct lp as [lp slp | | | | | | | | | | | | | |]; try exact I.
    destruct (String.eqb_spec operator2 "-") as [-> | Hop].
    + destruct r as [| | | | ro rp | | | | | | | | | |]; try exact I.
      destruct ro as [ro sro | | | | | | | | | | | | | |]; try exact I.
      destruct rp as [rp srp | | | | | | | | | | | | | |]; try exact I.
      change (ArrowFunctionExpression [Identifier p1 s1; Identifier p2 s2]
                (UnaryExpression operator
                   (BinaryExpression "-"
                      (MemberExpression (Identifier lo slo) (Identifier lp slp))
                      (MemberExpression (Identifier ro sro) (Identifier rp srp)))))
        with (subtraction_comparator (p1, s1) (p2, s2) (Some operator)
                (lo, slo) (lp, slp) (ro, sro) (rp, srp)).
      rewrite compareFn2_decides.
      repeat match goal with
             | |- context [if ?b then _ else _] => destruct b
             end; try exact I; repeat eexists.
    + apply String.eqb_neq in Hop. unfold SortSchema.compareFn2. cbn.
      rewrite Hop. cbn. exact I.
Qed.

Lemma spreadsb_spreads (name : string) (object : Node) :
  spreadsb name object = true <-> spreads name object.
Proof.
  unfold spreads. split.
  - destruct object as [| | | | | | | | | | | props | | |]; try discriminate.
    destruct props as [| p0 rest]; try discriminate.
    destruct p0 as [| | | | | | | | | | | | | arg |]; try discriminate.
    destruct arg as [n s | | | | | | | | | | | | | |]; try discriminate.
    cbn. intros H. apply String.eqb_eq in H. subst n. eauto.
  - intros (s & rest & ->). cbn. apply String.eqb_refl.
Qed.

Lemma namesb_names (name : string) (node : Node) :
  namesb name node = true <-> names name node.
Proof.
  unfold names. split.
  - destruct node as [n s | | | | | | | | | | | | | |]; try discriminate.
    cbn. intros H. apply String.eqb_eq in H. subst n. eauto.
  - intros (s & ->). cbn. apply String.eqb_refl.
Qed.

Ltac resolve_repeat :=
  match goal with
  | |- context [?f (List.map node_of ?rest) (@nil Value)] =>
      let H := fresh "Hrepeat" in
      assert (H : forall xs seen, exists v, f xs seen = Match v)
        by (let xs := fresh "xs" in intros xs; induction xs; intros; cbn; eauto);
      let v := fresh "v" in
      let E := fresh "E" in
      destruct (H (List.map node_of rest) (@nil Value)) as [v E];
      rewrite E; clear H E
  end.

Ltac settle_form :=
  cbn; rewrite ?String.eqb_refl; cbn;
  repeat (resolve_repeat; cbn; rewrite ?String.eqb_refl; cbn);
  try reflexivity.

Lemma getArrowFunctionBody_decides (name : string) (test c a : Node) :
  isMatch (Chimpanzee.run (UpdateSchema.getArrowFunctionBody (identifier_of name))
             (node_of (ConditionalExpression test c a)))
  = (spreadsb name c && namesb name a) || (namesb name c && spreadsb name a).
Proof.
  destruct c as [n s | | | | | | | | | | | props | | |]; try (settle_form; fail).
  - (* the consequent is an identifier *)
    cbn [spreadsb namesb andb orb].
    destruct (String.eqb_spec n name) as [-> | Hn].
    + destruct a as [| | | | | | | | | | | props | | |]; try (settle_form; fail).
      destruct props as [| p0 rest]; [settle_form; fail |].
      destruct p0 as [| | | | | | | | | | | | | arg |]; try (settle_form; fail).
      destruct arg as [m sm | | | | | | | | | | | | | |]; try (settle_form; fail).
      cbn [spreadsb andb].
      destruct (String.eqb_spec m name) as [-> | Hm].
      * settle_form.
      * apply String.eqb_neq in Hm. cbn. rewrite String.eqb_refl, Hm. reflexivity.
    + apply String.eqb_neq in Hn. cbn. rewrite Hn. reflexivity.
  - (* the consequent is an object expression *)
    cbn [namesb andb orb]. rewrite Bool.orb_false_r.
    destruct props as [| p0 rest]; [settle_form; fail |].
    destruct p0 as [| | | | | | | | | | | | | arg |]; try (settle_form; fail).
    destruct arg as [n s | | | | | | | | | | | | | |]; try (settle_form; fail).
    cbn [spreadsb].
    destruct (String.eqb_spec n name) as [-> | Hn].
    + destruct a as [m sm | | | | | | | | | | | props | | |];
        try (settle_form; fail).
      cbn [namesb andb].
      destruct (String.eqb_spec m name) as [-> | Hm].
      * settle_form.
      * apply String.eqb_neq in Hm. cbn. rewrite String.eqb_refl. cbn.
        resolve_repeat. cbn. rewrite Hm. reflexivity.
    + apply String.eqb_neq in Hn. cbn. rewrite Hn. reflexivity.
Qed.

(** X20.  The pattern that the update schema builds for the body of the
    arrow function matches exactly two forms, for the parameter [name]:
    [test ? { ...name, (properties) } : name] and
    [test ? name : { ...name, (properties) }].  The spread of the parameter
    has to be the first property of the object, the test is not
    constrained, and any other body is not matched. *)
Theorem getArrowFunctionBody_matches_the_two_forms (name : string) (body : Node) :
  isMatch (Chimpanzee.run (UpdateSchema.getArrowFunctionBody (identifier_of name))
             (node_of body)) = true
  <-> update_form name body.
Proof.
  split.
  - destruct body as [| | | | | | | | | test c a | | | | |];
      try (intros H; cbn in H; discriminate H).
    rewrite getArrowFunctionBody_decides. intros H.
    exists test, c, a. split; [reflexivity |].
    apply Bool.orb_true_iff in H. destruct H as [H | H];
      apply Bool.andb_true_iff in H; destruct H as [H1 H2].
    + left. split; [apply spreadsb_spreads | apply namesb_names]; assumption.
    + right. split; [apply namesb_names | apply spreadsb_spreads]; assumption.
  - intros (test & c & a & -> & H).
    rewrite getArrowFunctionBody_decides.
    apply Bool.orb_true_iff. destruct H as [[H1 H2] | [H1 H2]]; [left | right];
      apply Bool.andb_true_iff; split;
      first [apply spreadsb_spreads | apply namesb_names]; assumption.
Qed.

(** [t.id === 10 ? { ...t, active: true } : t] and its inverse are matched;
    [t.id === 10 ? { active: true, ...t } : t] is not. *)
Lemma getArrowFunctionBody_matches_the_two_forms_witness :
  update_form "t" standard_update_body
  /\ isMatch (Chimpanzee.run (UpdateSchema.getArrowFunctionBody (identifier_of "t"))
                (node_of standard_update_body)) = true
  /\ isMatch (Chimpanzee.run (UpdateSchema.getArrowFunctionBody (identifier_of "t"))
                (node_of inverse_update_body)) = true
  /\ isMatch (Chimpanzee.run (UpdateSchema.getArrowFunctionBody (identifier_of "t"))
                (node_of (ConditionalExpression
                            (BooleanLiteral true)
                            (ObjectExpression
                               [ObjectProperty (Identifier "active" 52)
                                  (BooleanLiteral true);
                                SpreadProperty (Identifier "t" 69)])
                            (Identifier "t" 75)))) = false.
Proof.
  assert (Hstandard : update_form "t" standard_update_body).
  { eexists _, _, _. split; [reflexivity |]. left.
    split; [eexists _, _; reflexivity | eexists; reflexivity]. }
  assert (Hinverse : update_form "t" inverse_update_body).
  { eexists _, _, _. split; [reflexivity |]. right.
    split; [eexists; reflexivity | eexists _, _; reflexivity]. }
  split; [exact Hstandard |]. split; [| split].
  - exact (proj2 (getArrowFunctionBody_matches_the_two_forms "t" standard_update_body)
             Hstandard).
  - exact (proj2 (getArrowFunctionBody_matches_the_two_forms "t" inverse_update_body)
             Hinverse).
  - match goal with |- ?b = false => destruct b eqn:E; [| reflexivity] end.
    apply (proj1 (getArrowFunctionBody_matches_the_two_forms "t" _)) in E.
    destruct E as (test & c & a & Heq & [[(s & r & Hc) _] | [(s & Hc) _]]);
      injection Heq as _ <- _; discriminate Hc.
Defined.

(** ** The first comparator pattern *)

Lemma run_obj_value (fields : list (string * Schema)) (input v : Value) :
  Chimpanzee.run (obj fields) input = Match v -> exists fs, v = Obj fs.
Proof.
  cbn [Chimpanzee.run].
  match goal with
  | |- ?each fields [] = _ -> _ =>
      enough (H : forall acc, each fields acc = Match v -> exists fs, v = Obj fs)
        by apply H
  end.
  induction fields as [| [k child] rest IH]; intros acc H.
  - injection H as <-. eauto.
  - destruct (Chimpanzee.run child (get k input)) as [w | | |]; try discriminate H.
    destruct (contribute child k w acc) as [acc' |]; [| discriminate H].
    exact (IH acc' H).
Qed.

Lemma getSortExpression1_of_an_object (fs : list (string * Value)) :
  SortSchema.getSortExpression1 (Obj fs)
  = Return (Skip "All fields in the sort expression must be the same.")
  \/ SortSchema.getSortExpression1 (Obj fs) = Throw (ReferenceError "val").
Proof.
  unfold SortSchema.getSortExpression1. cbn [member]. cbv beta iota delta [bind].
  destruct (strict_equals (get "lhsProp1" (Obj fs)) (get "rhsProp1" (Obj fs))
            && strict_equals (get "lhsProp1" (Obj fs)) (get "lhsProp2" (Obj fs))
            && strict_equals (get "lhsProp1" (Obj fs)) (get "rhsProp2" (Obj fs)));
    [| left; reflexivity].
  cbv zeta. cbn [mapM]. rewrite !val_unbound. right. reflexivity.
Qed.

(** X21.  The first comparator pattern (the ternary form) never gives a
    sort descriptor, whatever node it is applied to and whatever the schema
    of integers is: it returns a Skip, of the match or of the comparison of
    the fields, or it throws the ReferenceError on [val]. *)
Theorem compareFn1_never_describes :
  forall (integer : string -> Schema) (input : Value),
    match SortSchema.compareFn1 integer input with
    | Return outcome => exists reason, outcome = Skip reason
    | Throw e => e = ReferenceError "val"
    end.
Proof.
  intros integer input. unfold SortSchema.compareFn1, SortSchema.compareFn1_build.
  pose proof (run_outcome (SortSchema.compareFn1_schema integer) input) as Hout.
  destruct (Chimpanzee.run (SortSchema.compareFn1_schema integer) input)
    as [v | reason | |] eqn:Hrun; try contradiction.
  - apply run_obj_value in Hrun. destruct Hrun as [fs ->].
    cbn [isMatch value_of].
    destruct (getSortExpression1_of_an_object fs) as [-> | ->]; eauto.
  - cbn [isMatch]. eauto.
Qed.

(** ** The visitor *)

Lemma transformPath_visits
  (aI : Node -> State -> Config -> Completion (option Value * State))
  (aA : Node -> State -> Config -> Completion (option Value))
  (visitor : string) (path : Node)
  (analyze : Node -> State -> Config -> Completion (option Value * State))
  (state : State) (config : Config) :
  handler aI aA visitor path analyze ->
  match transformPath visitor path analyze state config with
  | (events, Return state') =>
      forall rest outcome,
        visits aI aA config state' rest outcome ->
        visits aI aA config state (events ++ rest) outcome
  | (events, Throw e) => visits aI aA config state events (Throw e)
  end.
Proof.
  intros Hh. unfold transformPath.
  destruct (analyze path state config) as [[[analysis |] state'] | e] eqn:Ha.
  - destruct (truthy analysis) eqn:Ht; intros rest outcome Hrest; cbn [app].
    + exact (visits_transformed aI aA config visitor path analyze state state'
               analysis rest outcome Hh Ha Ht Hrest).
    + exact (visits_analyzed aI aA config visitor path analyze state state'
               (Some analysis) rest outcome Hh Ha Ht Hrest).
  - intros rest outcome Hrest. cbn [app].
    exact (visits_analyzed aI aA config visitor path analyze state state'
             None rest outcome Hh Ha I Hrest).
  - exact (visits_thrown aI aA config visitor path analyze state e Hh Ha).
Qed.

(** X22.  Whatever the analyzers and the nodes visited, the events and the
    outcome of a traversal are a sequence of visits.  Only import
    declarations, assignments, member and call expressions are analyzed, each
    by the analyzer of the handler of its kind, in the state that the
    analyses before it left.  A node is skipped and transformed only right
    after its own analysis, by the same handler, with the very analysis that
    the analyzer returned, and exactly when that analysis is truthy; after a
    falsy analysis the next visit follows directly.  When an analyzer
    throws, no event follows and its error is the outcome of the traversal;
    otherwise the outcome is the state the last analysis left. *)
Theorem traversal_is_a_sequence_of_visits :
  forall (analyzeImportDeclaration :
            Node -> State -> Config -> Completion (option Value * State))
         (analyzeAssignmentExpression :
            Node -> State -> Config -> Completion (option Value))
         (paths : list Node) (state : State) (config : Config),
    visits analyzeImportDeclaration analyzeAssignmentExpression config state
      (fst (traverse analyzeImportDeclaration analyzeAssignmentExpression
              paths state config))
      (snd (traverse analyzeImportDeclaration analyzeAssignmentExpression
              paths state config)).
Proof.
  intros aI aA paths. induction paths as [| path rest IH]; intros state config.
  - constructor.
  - cbn [traverse].
    assert (Hvisit :
              match visitor aI aA path state config with
              | (events, Return state') =>
                  forall rest outcome,
                    visits aI aA config state' rest outcome ->
                    visits aI aA config state (events ++ rest) outcome
              | (events, Throw e) => visits aI aA config state events (Throw e)
              end).
    { unfold visitor.
      destruct path;
        try (intros more outcome Hmore; exact Hmore);
        apply transformPath_visits; constructor. }
    destruct (visitor aI aA path state config) as [events [state' | e]].
    + specialize (IH state' config).
      destruct (traverse aI aA rest state' config) as [events' outcome].
      cbn [fst snd] in *. apply Hvisit. exact IH.
    + exact Hvisit.
Qed.

(** ** The registry *)

(** X23.  In the registry of the read analyzer every id of a follows list
    is the id of a definition, no definition follows itself, and none
    follows length: a chain ends at a length, and a filter can not be
    applied to a filter. *)
Theorem follows_names_definitions :
  forall (d : NodeDefinition) (i : string),
    In d nodeDefinitions -> In i (follows d) ->
    In i registered /\ i <> id d /\ i <> "length".
Proof.
  intros d i Hd Hi. unfold nodeDefinitions in Hd. cbn [In] in Hd.
  repeat (destruct Hd as [<- | Hd];
          [cbn [follows id In] in Hi |- *;
           repeat (destruct Hi as [<- | Hi];
                   [split; [cbn; tauto | split; discriminate] |]);
           contradiction |]).
  contradiction.
Qed.

(** A filter may follow a sort. *)
Lemma follows_names_definitions_witness :
  In "sort" registered /\ "sort" <> "filter" /\ "sort" <> "length".
Proof.
  pose proof follows_names_definitions as H. unfold nodeDefinitions in H.
  match type of H with
  | forall d i, In d (_ :: ?filter :: _) -> _ =>
      exact (H filter "sort" (or_intror (or_introl eq_refl))
               (or_intror (or_introl eq_refl)))
  end.
Defined.

(** ** The commands of writes and of length *)

(** X24.  The builders of writes give nodes tagged "modification" that
    carry their method, their arguments and, as [source], the command they
    were applied to; [update] keeps the [update] and the [predicate] of its
    arguments and drops every other key, and throws, a TypeError, only when
    its arguments are undefined or null.  The node of [length] is tagged
    "value" and names a property, not a method. *)
Theorem write_commands_are_modifications :
  forall command : Value,
    (forall items,
        keys (DbStatements.insert command items) = ["type"; "method"; "items"; "source"]
        /\ get "type" (DbStatements.insert command items) = Str "modification"
        /\ get "method" (DbStatements.insert command items) = Str "insert"
        /\ get "items" (DbStatements.insert command items) = items
        /\ get "source" (DbStatements.insert command items) = command)
    /\ (forall predicate,
           keys (DbStatements.remove command predicate)
           = ["type"; "method"; "predicate"; "source"]
           /\ get "type" (DbStatements.remove command predicate) = Str "modification"
           /\ get "method" (DbStatements.remove command predicate) = Str "remove"
           /\ get "predicate" (DbStatements.remove command predicate) = predicate
           /\ get "source" (DbStatements.remove command predicate) = command)
    /\ (forall args,
           match DbStatements.update command args with
           | Return node =>
               keys node = ["type"; "method"; "update"; "predicate"; "source"]
               /\ get "type" node = Str "modification"
               /\ get "method" node = Str "update"
               /\ get "update" node = get "update" args
               /\ get "predicate" node = get "predicate" args
               /\ get "source" node = command
           | Throw e =>
               (args = Undefined \/ args = Null) /\ exists message, e = TypeError message
           end)
    /\ (keys (DbStatements.length command) = ["type"; "property"; "source"]
        /\ get "type" (DbStatements.length command) = Str "value"
        /\ get "property" (DbStatements.length command) = Str "length"
        /\ has "method" (DbStatements.length command) = false
        /\ get "source" (DbStatements.length command) = command).
Proof.
  intros command. split; [| split; [| split]].
  - intros items. repeat split; reflexivity.
  - intros predicate. repeat split; reflexivity.
  - intros args. unfold DbStatements.update.
    destruct args; cbn;
      try (repeat split; reflexivity);
      (split; [auto | eexists; reflexivity]).
  - repeat split; reflexivity.
Qed.
